(** * wxdb.cdec: the CDEC station-metadata pipeline

    A shallow embedding of [src/wxdb/cdec.py] (class [CDEC]): the
    per-station info fetcher [multi_station_info] and the metadata
    pipeline [metadata], together with the small part of the requests,
    json and pandas libraries that those two methods call.

    Conventions.
    - Python exceptions are values of [exn]; a computation that may raise
      returns a [result].
    - Code that mutates a local list or talks to the network runs in the
      state-and-exception monad [M]: the state survives an exception, as
      the list [df] survives the [except Exception: pass] of the source.
    - A data frame is stored column by column, every cell a Python object;
      labels are integers or strings.  Column dtypes are not represented:
      pandas turns a numeric column with a missing cell into float64 (1
      becomes 1.0, a null becomes NaN) and leaves NaN in a float64 column
      where the model writes None.  Labels, shape, exceptions and which
      cells are null do not depend on dtypes; the cell values of the
      model are those of object columns. *)

From Stdlib Require Import List String ZArith Bool Lia.
Import ListNotations.
Local Open Scope string_scope.
Local Open Scope Z_scope.
Local Open Scope list_scope.
Set Warnings "-register-all".

(* ================================================================== *)
(** ** Python values, labels, exceptions *)

(** What [json.loads] can put in a cell.  [VNaN] is the float NaN that
    pandas uses for a missing cell; [VFloat m e] is the decimal
    [m * 10^e], which the code only ever copies. *)
Inductive value : Type :=
| VNone
| VNaN
| VBool (b : bool)
| VInt (z : Z)
| VFloat (m e : Z)
| VStr (s : string)
| VList (l : list value)
| VDict (d : list (string * value)).

(** A JSON object as a Python dict: keys with their values. *)
Definition dict : Type := list (string * value).

Fixpoint dict_get (k : string) (d : dict) : option value :=
  match d with
  | [] => None
  | (k', v) :: d' => if String.eqb k k' then Some v else dict_get k d'
  end.

(** Row and column labels of pandas objects. *)
Inductive label : Type :=
| LInt (z : Z)
| LStr (s : string).

Definition label_eqb (a b : label) : bool :=
  match a, b with
  | LInt x, LInt y => Z.eqb x y
  | LStr x, LStr y => String.eqb x y
  | _, _ => false
  end.

Fixpoint labels_eqb (a b : list label) : bool :=
  match a, b with
  | [], [] => true
  | x :: a', y :: b' => label_eqb x y && labels_eqb a' b'
  | _, _ => false
  end.

(** The label as it shows up in a cell (after [reset_index]). *)
Definition label_value (l : label) : value :=
  match l with
  | LInt z => VInt z
  | LStr s => VStr s
  end.

Inductive exn : Type :=
| ConnectionError
| ValueError (msg : string)
| KeyError (key : label)
| TypeError (msg : string)
| IndexError (msg : string).

Inductive result (A : Type) : Type :=
| Ok (a : A)
| Raise (e : exn).
Arguments Ok {A} a.
Arguments Raise {A} e.

Definition rbind {A B} (r : result A) (k : A -> result B) : result B :=
  match r with
  | Ok a => k a
  | Raise e => Raise e
  end.

(* ================================================================== *)
(** ** The state-and-exception monad *)

Definition M (S A : Type) : Type := S -> S * result A.

Definition ret {S A} (a : A) : M S A := fun s => (s, Ok a).

Definition bind {S A B} (c : M S A) (k : A -> M S B) : M S B :=
  fun s => match c s with
           | (s', Ok a) => k a s'
           | (s', Raise e) => (s', Raise e)
           end.

Definition lift {S A} (r : result A) : M S A := fun s => (s, r).

Definition modify {S} (f : S -> S) : M S unit := fun s => (f s, Ok tt).

(** [try: c  except Exception: pass] *)
Definition try_pass {S} (c : M S unit) : M S unit :=
  fun s => match c s with
           | (s', Ok _) => (s', Ok tt)
           | (s', Raise _) => (s', Ok tt)
           end.

(** [for x in l: body x] *)
Fixpoint for_each {S A} (body : A -> M S unit) (l : list A) : M S unit :=
  match l with
  | [] => ret tt
  | x :: l' => bind (body x) (fun _ => for_each body l')
  end.

Declare Scope monad_scope.
Delimit Scope monad_scope with monad.
Notation "x <- c ;; k" := (bind c (fun x => k))
  (at level 61, c at next level, right associativity) : monad_scope.
Notation "c ;;; k" := (bind c (fun _ => k))
  (at level 61, right associativity) : monad_scope.
Local Open Scope monad_scope.

(* ================================================================== *)
(** ** What the CDEC servlets answer

    The body of a response is identified with what [json.loads] makes of
    it.  The model covers the replies on which requests, json and pandas
    behave in one documented way: a text that is not JSON, a JSON value
    that is not an object, an object with or without a STATION member,
    and a STATION member that is null, a scalar, or an array of objects
    (the shape both servlets use).  A STATION member that is a bare
    object or an array holding something else than objects is not
    represented. *)

Inductive station_member : Type :=
| SNull                                (* null *)
| SScalar (v : value)                  (* a number, a string, true, false *)
| SRecords (records : list dict).      (* an array of objects *)

Inductive document : Type :=
| DNotObject                           (* an array, a string, a number, ... *)
| DObject (station : option station_member).   (* data.get('STATION') *)

Record Response : Type := mkResponse {
  status_code : Z;
  text : option document               (* [None]: the text is not JSON *)
}.

(* ================================================================== *)
(** ** pandas: Series and DataFrame *)

Record Series : Type := mkSeries {
  name : label;
  s_index : list label;
  values : list value
}.

(** [data] holds the columns in order, each with its label and its cells
    (one per entry of [index]). *)
Record DataFrame : Type := mkFrame {
  index : list label;
  data : list (label * list value)
}.

Definition columns (d : DataFrame) : list label := map fst (data d).

(** What a list handed to [pd.concat] holds. *)
Inductive obj : Type :=
| OSeries (s : Series)
| OFrame (d : DataFrame).

Module pd.

(** Labels [0 .. n-1] of a default index. *)
Definition RangeIndex (n : nat) : list label :=
  map (fun i => LInt (Z.of_nat i)) (seq 0 n).

Definition mem (l : label) (ls : list label) : bool :=
  existsb (label_eqb l) ls.

(** Labels in order of first appearance, each kept once. *)
Fixpoint uniq (ls : list label) : list label :=
  match ls with
  | [] => []
  | l :: ls' => l :: filter (fun x => negb (label_eqb l x)) (uniq ls')
  end.

(** The cell stored under label [l], missing cells being NaN. *)
Fixpoint at_label (idx : list label) (vs : list value) (l : label) : value :=
  match idx, vs with
  | i :: idx', v :: vs' => if label_eqb l i then v else at_label idx' vs' l
  | _, _ => VNaN
  end.

Definition keys (r : dict) : list label := map (fun kv => LStr (fst kv)) r.

Definition cell (k : string) (r : dict) : value :=
  match dict_get k r with
  | Some v => v
  | None => VNaN
  end.

Definition label_cell (l : label) (r : dict) : value :=
  match l with
  | LStr k => cell k r
  | LInt _ => VNaN
  end.

(** [pd.DataFrame(records)] for a list of dicts: one row per dict, one
    column per key that occurs, NaN where a dict lacks the key.  The
    cells are the served values; the numeric coercion that pandas applies
    to a column of numbers with a missing cell is not represented. *)
Definition from_records (records : list dict) : DataFrame :=
  {| index := RangeIndex (List.length records);
     data := map (fun l => (l, map (label_cell l) records))
                 (uniq (flat_map keys records)) |}.

(** [pd.DataFrame()] *)
Definition empty : DataFrame := {| index := []; data := [] |}.

(** [pd.DataFrame(v)] for the value [v] found under STATION. *)
Definition new_DataFrame (v : station_member) : result DataFrame :=
  match v with
  | SNull => Ok empty
  | SScalar _ => Raise (ValueError "DataFrame constructor not properly called!")
  | SRecords records => Ok (from_records records)
  end.

(** [d.iloc[0]] *)
Definition iloc0 (d : DataFrame) : result Series :=
  match index d with
  | [] => Raise (IndexError "single positional indexer is out-of-bounds")
  | l :: _ =>
      Ok {| name := l;
            s_index := columns d;
            values := map (fun c => hd VNaN (snd c)) (data d) |}
  end.

Fixpoint find_column (c : label) (cols : list (label * list value))
  : option (list value) :=
  match cols with
  | [] => None
  | (l, vs) :: cols' => if label_eqb c l then Some vs else find_column c cols'
  end.

(** [d[c]] *)
Definition getitem (d : DataFrame) (c : label) : result Series :=
  match find_column c (data d) with
  | Some vs => Ok {| name := c; s_index := index d; values := vs |}
  | None => Raise (KeyError c)
  end.

(** [s[l]] by label *)
Fixpoint series_at (idx : list label) (vs : list value) (l : label)
  : result value :=
  match idx, vs with
  | i :: idx', v :: vs' => if label_eqb l i then Ok v else series_at idx' vs' l
  | _, _ => Raise (KeyError l)
  end.

Definition series_getitem (s : Series) (l : label) : result value :=
  series_at (s_index s) (values s) l.

(** A Series as the one-column frame that [concat] makes of it. *)
Definition to_frame (o : obj) : DataFrame :=
  match o with
  | OSeries s => {| index := s_index s; data := [(name s, values s)] |}
  | OFrame d => d
  end.

Definition reindex_column (new_index old_index : list label)
           (c : label * list value) : label * list value :=
  (fst c, map (at_label old_index (snd c)) new_index).

(** [pd.concat(objs, axis=1)]: the objects side by side, their rows
    aligned on the union of the row labels (outer join).  The list is
    all Series or all frames in this program, and the row labels of each
    object are distinct (dict keys, a default index).  Rows that an
    object lacks are padded with NaN; the upcast of a padded integer
    column to float64 is not represented. *)
Definition concat_axis1 (objs : list obj) : result DataFrame :=
  match objs with
  | [] => Raise (ValueError "No objects to concatenate")
  | _ =>
      let frames := map to_frame objs in
      let idx := uniq (flat_map index frames) in
      Ok {| index := idx;
            data := flat_map
                      (fun f => map (reindex_column idx (index f)) (data f))
                      frames |}
  end.

(** [d.T] *)
Definition transpose (d : DataFrame) : DataFrame :=
  {| index := columns d;
     data := map (fun il => (snd il,
                             map (fun c => nth (fst il) (snd c) VNaN) (data d)))
                 (combine (seq 0 (List.length (index d))) (index d)) |}.

(** [d.reset_index()] of a frame whose index has no name: the old
    labels become a first column called index, or level_0 when index is
    taken. *)
Definition reset_index (d : DataFrame) : result DataFrame :=
  let nm := if mem (LStr "index") (columns d) then "level_0" else "index" in
  if mem (LStr nm) (columns d)
  then Raise (ValueError ("cannot insert " ++ nm ++ ", already exists")%string)
  else Ok {| index := RangeIndex (List.length (index d));
             data := (LStr nm, map label_value (index d)) :: data d |}.

Fixpoint set_column (c : label) (vs : list value)
         (cols : list (label * list value)) : list (label * list value) :=
  match cols with
  | [] => [(c, vs)]
  | (l, old) :: cols' =>
      if label_eqb c l then (l, vs) :: cols'
      else (l, old) :: set_column c vs cols'
  end.

Fixpoint has_duplicates (ls : list label) : bool :=
  match ls with
  | [] => false
  | l :: ls' => mem l ls' || has_duplicates ls'
  end.

(** [d[c] = s] for a Series [s].  A frame without rows takes the index
    of a non-empty [s]; the cells are taken as they are when the two
    indexes are equal and are aligned by label otherwise. *)
Definition setitem_series (d : DataFrame) (c : label) (s : Series)
  : result DataFrame :=
  let d1 :=
    match index d, values s with
    | [], _ :: _ =>
        {| index := s_index s;
           data := map (fun col => (fst col, map (fun _ => VNaN) (s_index s)))
                       (data d) |}
    | _, _ => d
    end in
  if labels_eqb (s_index s) (index d1)
  then Ok {| index := index d1; data := set_column c (values s) (data d1) |}
  else
    match index d1 with
    | [] => Ok {| index := index d1; data := set_column c (values s) (data d1) |}
    | _ =>
        if has_duplicates (s_index s)
        then Raise (ValueError "cannot reindex on an axis with duplicate labels")
        else Ok {| index := index d1;
                   data := set_column c
                             (map (at_label (s_index s) (values s)) (index d1))
                             (data d1) |}
    end.

(** [d[c] = v] for a scalar [v]: the value in every row. *)
Definition setitem_scalar (d : DataFrame) (c : label) (v : value) : DataFrame :=
  {| index := index d;
     data := set_column c (map (fun _ => v) (index d)) (data d) |}.

(** [pd.notnull] on one cell *)
Definition notnull (v : value) : bool :=
  match v with
  | VNone | VNaN => false
  | _ => true
  end.

(** [d.where(pd.notnull(d), None)] on object columns: a null cell becomes
    None.  In a float64 column current pandas leaves NaN in place, which
    the model, having no dtypes, does not show; either way the cell stays
    null and no other cell changes. *)
Definition where_notnull_None (d : DataFrame) : DataFrame :=
  {| index := index d;
     data := map (fun c => (fst c,
                            map (fun v => if notnull v then v else VNone) (snd c)))
                 (data d) |}.

End pd.

(* ================================================================== *)
(** ** requests, grequests, json and the database collaborator *)

(** What the run does to the outside world, in order. *)
Inductive event : Type :=
| GetAllStations
| GetStationInfo (stationID : value)
| InsertData (table : DataFrame) (description : string) (metadata : bool).

(** The remote service.  [all_stations] is the answer of the directory
    servlet ([None]: [requests.get] raises); [station_info k s] is what
    [grequests.map] returns in slot [k] for the request about station [s]
    ([None]: the request failed). *)
Record Net : Type := mkNet {
  all_stations : option Response;
  station_info : nat -> value -> option Response
}.

Record World : Type := mkWorld {
  net : Net;
  trace : list event
}.

Definition emit (evs : list event) (w : World) : World :=
  {| net := net w; trace := trace w ++ evs |}.

(** [grequests.get(url, params={'stationID': s})]: a request not yet sent. *)
Record AsyncRequest : Type := mkAsyncRequest {
  url : string;
  stationID : value
}.

Module requests.

(** [bool(r)] is [r.ok]: no 4xx or 5xx status. *)
Definition ok (r : Response) : bool :=
  negb ((400 <=? status_code r) && (status_code r <? 600)).

(** [requests.get('.../getAllStations')] *)
Definition get_all_stations : M World Response :=
  fun w =>
    match all_stations (net w) with
    | Some r => (emit [GetAllStations] w, Ok r)
    | None => (emit [GetAllStations] w, Raise ConnectionError)
    end.

(** [requests.get('.../getStationInfo', params={'stationID': stid})]: a
    request on its own, answered as slot 0 of the service; it raises when
    there is no answer. *)
Definition get_station_info (stid : value) : M World Response :=
  fun w =>
    match station_info (net w) 0 stid with
    | Some r => (emit [GetStationInfo stid] w, Ok r)
    | None => (emit [GetStationInfo stid] w, Raise ConnectionError)
    end.

End requests.

Module grequests.

(** [grequests.map(r, size=size)]: the requests are sent in order and
    the answers come back in the order of the requests, [None] where a
    request failed.  [size] bounds the number of requests in flight,
    which this sequential model does not observe. *)
Definition map (r : list AsyncRequest) (size : nat)
  : M World (list (option Response)) :=
  fun w =>
    (emit (List.map (fun q => GetStationInfo (stationID q)) r) w,
     Ok (List.map (fun kq => station_info (net w) (fst kq) (stationID (snd kq)))
                  (combine (seq 0 (List.length r)) r))).

End grequests.

Module json.

(** [json.loads(text)] *)
Definition loads (t : option document) : result document :=
  match t with
  | Some data => Ok data
  | None => Raise (ValueError "Expecting value")
  end.

End json.

(** [data['STATION']] *)
Definition getitem_STATION (data : document) : result station_member :=
  match data with
  | DNotObject => Raise (TypeError "indices must be integers")
  | DObject None => Raise (KeyError (LStr "STATION"))
  | DObject (Some v) => Ok v
  end.

(** [db.insert_data(DF, description=..., metadata=...)]: the call is
    recorded.  The database class is outside this module; an exception
    of its own, raised after the call, is not modelled. *)
Definition insert_data (DF : DataFrame) (description : string) (metadata : bool)
  : M World unit :=
  fun w => (emit [InsertData DF description metadata] w, Ok tt).

(* ================================================================== *)
(** ** class CDEC *)

Module CDEC.

Definition conversion : list (string * string) :=
  [ ("LATITUDE", "latitude");
    ("STATION_ID", "primary_id");
    ("LONGITUDE", "longitude");
    ("STATION_NAME", "station_name");
    ("ELEVATION", "elevation");
    ("AGENCY_NAME", "primary_provider") ].

Definition station_info_url : string :=
  "http://cdec.water.ca.gov/cdecstation2/CDecServlet/getStationInfo".

(** [data = json.loads(r.text); pd.DataFrame(data['STATION'])], the two
    lines that [single_station_info], [multi_station_info] and
    [metadata] share. *)
Definition station_frame (r : Response) : result DataFrame :=
  rbind (json.loads (text r)) (fun data =>
  rbind (getitem_STATION data) pd.new_DataFrame).

(** Lines 63-67: no status check and no [try]. *)
Definition single_station_info (stid : value) : M World DataFrame :=
  r <- requests.get_station_info stid ;;
  lift (station_frame r).

Definition append (o : obj) : M (list obj) unit :=
  modify (fun df => df ++ [o]).

(** The body of the [try] of [multi_station_info] (lines 98-104).  The
    last line is the argument of the debug message, [d['STATION_ID'][0]],
    which is evaluated whatever the logging level. *)
Definition try_body (fields : bool) (rs : Response) : M (list obj) unit :=
  d <- lift (station_frame rs) ;;
  (if fields
   then append (OFrame d)
   else (row <- lift (pd.iloc0 d) ;; append (OSeries row))) ;;;
  ids <- lift (pd.getitem d (LStr "STATION_ID")) ;;
  _ <- lift (pd.series_getitem ids (LInt 0)) ;;
  ret tt.

(** One turn of the loop [for rs in res] (lines 95-106). *)
Definition handle_response (fields : bool) (rs : option Response)
  : M (list obj) unit :=
  match rs with
  | None => ret tt
  | Some rs =>
      if requests.ok rs
      then if status_code rs =? 200
           then try_pass (try_body fields rs)
           else ret tt
      else ret tt
  end.

(** The list [df] after the loop, and how the loop ended. *)
Definition collect (fields : bool) (res : list (option Response))
  : list obj * result unit :=
  for_each (handle_response fields) res [].

(** Lines 84-86: one request per station identifier. *)
Definition build_requests (stids : list value) : list AsyncRequest :=
  List.map (fun s => {| url := station_info_url; stationID := s |}) stids.

Definition multi_station_info (stids : list value) (fields : bool)
  : M World DataFrame :=
  let r := build_requests stids in
  res <- grequests.map r 1 ;;
  match collect fields res with
  | (df, Ok _) =>
      lift (rbind (pd.concat_axis1 df) (fun c =>
            pd.reset_index (pd.transpose c)))
  | (_, Raise e) => lift (Raise e)
  end.

(** Lines 138-150 of [metadata]: the canonical columns out of [info]. *)
Definition project (info : DataFrame) : result DataFrame :=
  rbind (fold_left
           (fun acc c =>
              rbind acc (fun DF =>
              rbind (pd.getitem info (LStr (fst c))) (fun col =>
              pd.setitem_series DF (LStr (snd c)) col)))
           conversion (Ok pd.empty)) (fun DF =>
  rbind (pd.getitem DF (LStr "latitude")) (fun lat =>
  rbind (pd.setitem_series DF (LStr "reported_lat") lat) (fun DF =>
  rbind (pd.getitem DF (LStr "longitude")) (fun lon =>
  rbind (pd.setitem_series DF (LStr "reported_long") lon) (fun DF =>
  let DF := pd.setitem_scalar DF (LStr "source") (VStr "cdec") in
  let DF := pd.setitem_scalar DF (LStr "state") (VStr "CA") in
  let DF := pd.setitem_scalar DF (LStr "timezone") (VStr "PDT") in
  Ok DF))))).

Definition metadata : M World unit :=
  r <- requests.get_all_stations ;;
  df <- lift (station_frame r) ;;
  stids <- lift (pd.getitem df (LStr "STATION_ID")) ;;
  info <- multi_station_info (values stids) false ;;
  DF <- lift (project info) ;;
  let DF := pd.where_notnull_None DF in
  insert_data DF "CDEC metadata" true.

(** A run of [metadata] against the service [n]. *)
Definition run (n : Net) : World * result unit :=
  metadata {| net := n; trace := [] |}.

(** The tables handed to the database in a run. *)
Definition sunk (w : World) : list DataFrame :=
  flat_map (fun ev => match ev with
                      | InsertData t _ _ => [t]
                      | _ => []
                      end) (trace w).

End CDEC.

(* ================================================================== *)
(** ** Derived notions used in the statements *)

(** What one response adds to the list [df]. *)
Definition kept (fields : bool) (rs : option Response) : list obj :=
  fst (CDEC.handle_response fields rs []).

(** The answers that [multi_station_info] works on. *)
Definition responses (n : Net) (stids : list value) : list (option Response) :=
  map (fun ks => station_info n (fst ks) (snd ks))
      (combine (seq 0 (List.length stids)) stids).

(** Every column has one cell per row label. *)
Definition wf_frame (d : DataFrame) : Prop :=
  Forall (fun c => List.length (snd c) = List.length (index d)) (data d).

(** A Series has one cell per label. *)
Definition wf_series (s : Series) : Prop :=
  List.length (values s) = List.length (s_index s).

(** The frame that [CDEC.project] builds out of the six source columns. *)
Definition canonical (index_ : list label) (lat id lon nm el ag : list value)
  : DataFrame :=
  {| index := index_;
     data := [ (LStr "latitude", lat);
               (LStr "primary_id", id);
               (LStr "longitude", lon);
               (LStr "station_name", nm);
               (LStr "elevation", el);
               (LStr "primary_provider", ag);
               (LStr "reported_lat", lat);
               (LStr "reported_long", lon);
               (LStr "source", map (fun _ => VStr "cdec") index_);
               (LStr "state", map (fun _ => VStr "CA") index_);
               (LStr "timezone", map (fun _ => VStr "PDT") index_) ] |}.

(** The table [info] that [metadata] gets for the identifiers [stids]. *)
Definition station_table (n : Net) (stids : list value) : result DataFrame :=
  rbind (pd.concat_axis1 (flat_map (kept false) (responses n stids)))
        (fun c => pd.reset_index (pd.transpose c)).

(** The identifiers that the directory answer [r] lists. *)
Definition directory_ids (r : Response) : result (list value) :=
  rbind (CDEC.station_frame r) (fun df =>
  rbind (pd.getitem df (LStr "STATION_ID")) (fun col => Ok (values col))).

(** The world in which [evs] have happened on the service [n]. *)
Definition after (n : Net) (evs : list event) : World :=
  {| net := n; trace := evs |}.

(** The cells that the objects [objs] hold under the row label [x], one
    per column, NaN where an object has no such row. *)
Definition cells_at (x : label) (objs : list obj) : list value :=
  flat_map (fun f => map (fun col => pd.at_label (index f) (snd col) x) (data f))
           (map pd.to_frame objs).

(** Row labels of the objects taken together. *)
Definition row_labels (objs : list obj) : list label :=
  pd.uniq (flat_map index (map pd.to_frame objs)).

(** The row that [d.iloc[0]] makes of the records [rec0 :: rest]. *)
Definition first_row (rec0 : dict) (rest : list dict) : Series :=
  {| name := LInt 0;
     s_index := pd.uniq (flat_map pd.keys (rec0 :: rest));
     values := map (fun l => pd.label_cell l rec0)
                   (pd.uniq (flat_map pd.keys (rec0 :: rest))) |}.

(** The records of an answer with status 200 and a STATION array. *)
Definition records_of (rs : option Response) : list dict :=
  match rs with
  | Some r =>
      if status_code r =? 200
      then match text r with
           | Some (DObject (Some (SRecords records))) => records
           | _ => []
           end
      else []
  | None => []
  end.

(** The first record of such an answer, if it has one. *)
Definition first_record (rs : option Response) : list dict :=
  match records_of rs with
  | rec0 :: _ => [rec0]
  | [] => []
  end.

(** The three ways in which one station's fetch fails softly. *)
Inductive soft_failure : option Response -> Prop :=
| no_response : soft_failure None
| bad_status (r : Response) :
    status_code r <> 200 -> soft_failure (Some r)
| bad_payload (r : Response) (e : exn) :
    CDEC.station_frame r = Raise e -> soft_failure (Some r).

(** The ways in which the directory fetch fails, with the exception. *)
Inductive directory_failure (n : Net) : exn -> Prop :=
| request_failed :
    all_stations n = None -> directory_failure n ConnectionError
| payload_failed (r : Response) (e : exn) :
    all_stations n = Some r -> CDEC.station_frame r = Raise e ->
    directory_failure n e
| identifiers_missing (r : Response) (df : DataFrame) (e : exn) :
    all_stations n = Some r -> CDEC.station_frame r = Ok df ->
    pd.getitem df (LStr "STATION_ID") = Raise e ->
    directory_failure n e.

Definition column (d : DataFrame) (c : string) : option (list value) :=
  pd.find_column (LStr c) (data d).

(** The canonical columns, in the order in which [metadata] adds them. *)
Definition canonical_columns : list label :=
  map LStr [ "latitude"; "primary_id"; "longitude"; "station_name";
             "elevation"; "primary_provider"; "reported_lat";
             "reported_long"; "source"; "state"; "timezone" ].

(** What the null pass makes of a cell. *)
Definition none_if_null (v : value) : value :=
  if pd.notnull v then v else VNone.


(** The objects collected for the identifiers [stids] in summary mode. *)
Definition collected (n : Net) (stids : list value) : list obj :=
  fst (CDEC.collect false (responses n stids)).

(** Which cells of a column hold a value ([true]) and which are null. *)
Definition filled (vs : list value) : list bool := map pd.notnull vs.

(** The events that hand a table to the database. *)
Definition is_insert (ev : event) : Prop :=
  exists T description metadata, ev = InsertData T description metadata.

(** The field names that occur in the records of the answers with status
    200, in order of appearance. *)
Definition fields_seen (res : list (option Response)) : list label :=
  flat_map (fun rs => flat_map pd.keys (records_of rs)) res.

(** The label is a record number. *)
Definition is_number (l : label) : Prop := exists z, l = LInt z.

(** *** Services used as examples *)

Definition station_reply (records : list dict) : option Response :=
  Some {| status_code := 200;
          text := Some (DObject (Some (SRecords records))) |}.

Definition server_error : option Response :=
  Some {| status_code := 500; text := None |}.

Definition full_record (id : string) (lat lon : Z) : dict :=
  [ ("STATION_ID", VStr id); ("LATITUDE", VInt lat); ("LONGITUDE", VInt lon);
    ("STATION_NAME", VStr id); ("ELEVATION", VNone);
    ("AGENCY_NAME", VStr "DWR") ].

(** Stations A, B and C, of which B answers with status 500. *)
Definition abc_net : Net :=
  {| all_stations :=
       station_reply [ [("STATION_ID", VStr "A")];
                       [("STATION_ID", VStr "B")];
                       [("STATION_ID", VStr "C")] ];
     station_info := fun _ s =>
       match s with
       | VStr "A" => station_reply [full_record "A" 10 20]
       | VStr "C" => station_reply [full_record "C" 30 40]
       | _ => server_error
       end |}.

(** One station, which answers with status 500. *)
Definition http500_net : Net :=
  {| all_stations := station_reply [ [("STATION_ID", VStr "A")] ];
     station_info := fun _ _ => server_error |}.

(** One station with two sensor records. *)
Definition two_sensor_net : Net :=
  {| all_stations := station_reply [ [("STATION_ID", VStr "A")] ];
     station_info := fun _ _ =>
       station_reply [ [("STATION_ID", VStr "A"); ("SENS_NO", VInt 1)];
                       [("STATION_ID", VStr "A"); ("SENS_NO", VInt 2)] ] |}.

(** One station whose record carries nothing but its identifier. *)
Definition id_only_net : Net :=
  {| all_stations := station_reply [ [("STATION_ID", VStr "A")] ];
     station_info := fun _ _ => station_reply [ [("STATION_ID", VStr "A")] ] |}.


(** A station servlet that answers with status 500 and a STATION array. *)
Definition error_page_net : Net :=
  {| all_stations := None;
     station_info := fun _ _ =>
       Some {| status_code := 500;
               text := Some (DObject (Some (SRecords
                         [full_record "B" 1 2]))) |} |}.

(** The directory servlet is down. *)
Definition no_directory_net : Net :=
  {| all_stations := None; station_info := fun _ _ => server_error |}.

(* ================================================================== *)
(** ** Labels *)

Lemma label_eqb_eq (a b : label) : label_eqb a b = true <-> a = b.
Proof.
  destruct a as [x|x], b as [y|y]; simpl; split; intro H;
    try discriminate; try (inversion H; subst).
  - apply Z.eqb_eq in H. now subst.
  - apply Z.eqb_refl.
  - apply String.eqb_eq in H. now subst.
  - apply String.eqb_refl.
Qed.

Lemma label_eqb_refl (a : label) : label_eqb a a = true.
Proof. now apply label_eqb_eq. Qed.

Lemma label_eqb_neq (a b : label) : label_eqb a b = false <-> a <> b.
Proof.
  split.
  - intros H E. apply label_eqb_eq in E. congruence.
  - intro H. destruct (label_eqb a b) eqn:E; [|reflexivity].
    apply label_eqb_eq in E. contradiction.
Qed.

Lemma labels_eqb_refl (ls : list label) : labels_eqb ls ls = true.
Proof.
  induction ls as [|l ls IH]; simpl; [reflexivity|].
  now rewrite label_eqb_refl, IH.
Qed.

Lemma mem_In (l : label) (ls : list label) : pd.mem l ls = true <-> In l ls.
Proof.
  unfold pd.mem. rewrite existsb_exists. split.
  - intros (x & Hx & E). apply label_eqb_eq in E. now subst.
  - intro H. exists l. split; [assumption|apply label_eqb_refl].
Qed.

Lemma mem_false (l : label) (ls : list label) :
  pd.mem l ls = false <-> ~ In l ls.
Proof.
  rewrite <- mem_In. destruct (pd.mem l ls); split; intro H;
    try reflexivity; try discriminate; try congruence.
Qed.

(* ================================================================== *)
(** ** The loop of [multi_station_info] *)

Ltac run_monad :=
  unfold bind, lift, ret, modify, try_pass, CDEC.append in *; simpl in *.

Lemma try_body_appends (fields : bool) (r : Response) (df : list obj) :
  fst (CDEC.try_body fields r df) = df ++ fst (CDEC.try_body fields r []).
Proof.
  unfold CDEC.try_body. run_monad.
  destruct (CDEC.station_frame r) as [d|e]; simpl.
  2: now rewrite app_nil_r.
  destruct fields.
  - destruct (pd.getitem d (LStr "STATION_ID")) as [ids|e]; simpl; [|reflexivity].
    destruct (pd.series_getitem ids (LInt 0)); reflexivity.
  - destruct (pd.iloc0 d) as [row|e]; simpl.
    2: now rewrite app_nil_r.
    destruct (pd.getitem d (LStr "STATION_ID")) as [ids|e]; simpl; [|reflexivity].
    destruct (pd.series_getitem ids (LInt 0)); reflexivity.
Qed.

Lemma handle_response_spec (fields : bool) (rs : option Response) (df : list obj) :
  CDEC.handle_response fields rs df = (df ++ kept fields rs, Ok tt).
Proof.
  unfold kept, CDEC.handle_response.
  destruct rs as [r|]; [|unfold ret; simpl; now rewrite app_nil_r].
  destruct (requests.ok r); [|unfold ret; simpl; now rewrite app_nil_r].
  destruct (status_code r =? 200); [|unfold ret; simpl; now rewrite app_nil_r].
  unfold try_pass.
  pose proof (try_body_appends fields r df) as H.
  destruct (CDEC.try_body fields r df) as [s1 [u1|e1]];
    destruct (CDEC.try_body fields r []) as [s2 [u2|e2]];
    simpl in *; now subst.
Qed.

Lemma for_each_handle (fields : bool) (res : list (option Response)) (df : list obj) :
  for_each (CDEC.handle_response fields) res df
  = (df ++ flat_map (kept fields) res, Ok tt).
Proof.
  revert df. induction res as [|rs res IH]; intro df; simpl.
  - unfold ret. now rewrite app_nil_r.
  - unfold bind. rewrite handle_response_spec, IH. now rewrite <- app_assoc.
Qed.

Lemma collect_spec (fields : bool) (res : list (option Response)) :
  CDEC.collect fields res = (flat_map (kept fields) res, Ok tt).
Proof. unfold CDEC.collect. now rewrite for_each_handle. Qed.

Lemma kept_at_most_one (fields : bool) (rs : option Response) :
  (List.length (kept fields rs) <= 1)%nat.
Proof.
  unfold kept, CDEC.handle_response.
  destruct rs as [r|]; simpl; [|lia].
  destruct (requests.ok r); simpl; [|lia].
  destruct (status_code r =? 200); simpl; [|lia].
  unfold CDEC.try_body. run_monad.
  destruct (CDEC.station_frame r) as [d|e]; simpl; [|lia].
  destruct fields.
  - destruct (pd.getitem d (LStr "STATION_ID")) as [ids|e]; simpl; [|lia].
    destruct (pd.series_getitem ids (LInt 0)); simpl; lia.
  - destruct (pd.iloc0 d) as [row|e]; simpl; [|lia].
    destruct (pd.getitem d (LStr "STATION_ID")) as [ids|e]; simpl; [|lia].
    destruct (pd.series_getitem ids (LInt 0)); simpl; lia.
Qed.

Lemma flat_map_kept_length (fields : bool) (res : list (option Response)) :
  (List.length (flat_map (kept fields) res) <= List.length res)%nat.
Proof.
  induction res as [|rs res IH]; simpl; [lia|].
  rewrite length_app. pose proof (kept_at_most_one fields rs). lia.
Qed.

(** The answers of [grequests.map]: one per request. *)
Lemma grequests_map_spec (r : list AsyncRequest) (size : nat) (w : World) :
  exists res,
    grequests.map r size w
    = (emit (map (fun q => GetStationInfo (stationID q)) r) w, Ok res)
    /\ List.length res = List.length r.
Proof.
  eexists. split; [reflexivity|].
  now rewrite length_map, length_combine, length_seq, Nat.min_id.
Qed.

Lemma combine_seq_map {A B} (f : A -> B) (l : list A) (a : nat) :
  combine (seq a (List.length (map f l))) (map f l)
  = map (fun kx => (fst kx, f (snd kx))) (combine (seq a (List.length l)) l).
Proof.
  revert a. induction l as [|x l IH]; intro a; simpl; [reflexivity|].
  now rewrite IH.
Qed.

Lemma grequests_map_build (stids : list value) (size : nat) (w : World) :
  grequests.map (CDEC.build_requests stids) size w
  = (emit (map GetStationInfo stids) w, Ok (responses (net w) stids)).
Proof.
  unfold grequests.map, CDEC.build_requests, responses.
  rewrite combine_seq_map, !map_map. simpl. reflexivity.
Qed.

Lemma multi_station_info_spec (stids : list value) (fields : bool) (w : World) :
  CDEC.multi_station_info stids fields w
  = (emit (map GetStationInfo stids) w,
     rbind (pd.concat_axis1 (flat_map (kept fields) (responses (net w) stids)))
           (fun c => pd.reset_index (pd.transpose c))).
Proof.
  unfold CDEC.multi_station_info, bind.
  rewrite grequests_map_build, collect_spec. reflexivity.
Qed.

(* ================================================================== *)
(** ** Frames: shape and column lookup *)

Lemma find_column_In c cols vs :
  pd.find_column c cols = Some vs -> In (c, vs) cols.
Proof.
  induction cols as [|[l old] cols IH]; simpl; [discriminate|].
  destruct (label_eqb c l) eqn:E.
  - intro H. inversion H; subst. apply label_eqb_eq in E. subst. now left.
  - intro H. right. now apply IH.
Qed.

Lemma find_column_None c cols :
  pd.find_column c cols = None <-> ~ In c (map fst cols).
Proof.
  induction cols as [|[l old] cols IH]; simpl.
  - split; [intros _ []|reflexivity].
  - destruct (label_eqb c l) eqn:E.
    + apply label_eqb_eq in E. subst. split; [discriminate|].
      intro H. exfalso. apply H. now left.
    + apply label_eqb_neq in E. rewrite IH. split.
      * intros H [H'|H']; [congruence|contradiction].
      * intros H H'. apply H. now right.
Qed.

Lemma find_column_set_same c vs cols :
  pd.find_column c (pd.set_column c vs cols) = Some vs.
Proof.
  induction cols as [|[l old] cols IH]; simpl.
  - now rewrite label_eqb_refl.
  - destruct (label_eqb c l) eqn:E; simpl; rewrite ?E; [reflexivity|exact IH].
Qed.

Lemma find_column_set_other c c' vs cols :
  c <> c' ->
  pd.find_column c' (pd.set_column c vs cols) = pd.find_column c' cols.
Proof.
  intro N. induction cols as [|[l old] cols IH]; simpl.
  - assert (label_eqb c' c = false) as -> by (apply label_eqb_neq; congruence).
    reflexivity.
  - destruct (label_eqb c l) eqn:E; simpl.
    + apply label_eqb_eq in E. subst l.
      assert (label_eqb c' c = false) as -> by (apply label_eqb_neq; congruence).
      reflexivity.
    + now rewrite IH.
Qed.

Lemma getitem_wf (d : DataFrame) (c : label) (s : Series) :
  wf_frame d -> pd.getitem d c = Ok s ->
  wf_series s /\ s_index s = index d /\ name s = c
  /\ pd.find_column c (data d) = Some (values s).
Proof.
  unfold pd.getitem, wf_frame, wf_series. intros W H.
  destruct (pd.find_column c (data d)) as [vs|] eqn:E; [|discriminate].
  inversion H; subst; simpl. repeat split.
  apply find_column_In in E. rewrite Forall_forall in W.
  exact (W _ E).
Qed.

Lemma setitem_series_same_index (d : DataFrame) (c : label) (s : Series) :
  wf_series s ->
  index d = s_index s \/ (index d = [] /\ data d = []) ->
  pd.setitem_series d c s
  = Ok {| index := s_index s; data := pd.set_column c (values s) (data d) |}.
Proof.
  unfold wf_series, pd.setitem_series. intros W [H|[H1 H2]].
  - destruct (index d) as [|l ls] eqn:Ei.
    + rewrite <- H in W. destruct (values s) as [|v vs]; [|discriminate].
      rewrite Ei, <- H. reflexivity.
    + rewrite Ei, <- H, labels_eqb_refl. reflexivity.
  - rewrite H1, H2. destruct (values s) as [|v vs] eqn:Ev.
    + destruct (s_index s); [|discriminate]. rewrite H1, H2. reflexivity.
    + simpl. rewrite labels_eqb_refl. reflexivity.
Qed.

Lemma set_column_wf (n : nat) c vs cols :
  List.length vs = n ->
  Forall (fun col : label * list value => List.length (snd col) = n) cols ->
  Forall (fun col : label * list value => List.length (snd col) = n)
         (pd.set_column c vs cols).
Proof.
  intros Hv. induction 1 as [|[l old] cols Hc Hcols IH]; simpl.
  - now constructor.
  - destruct (label_eqb c l); constructor; auto.
Qed.

Lemma concat_axis1_Ok (objs : list obj) (c : DataFrame) :
  pd.concat_axis1 objs = Ok c ->
  objs <> []
  /\ c = {| index := pd.uniq (flat_map index (map pd.to_frame objs));
            data := flat_map
                      (fun f => map (pd.reindex_column
                                       (pd.uniq (flat_map index (map pd.to_frame objs)))
                                       (index f)) (data f))
                      (map pd.to_frame objs) |}.
Proof.
  unfold pd.concat_axis1. destruct objs as [|o objs]; [discriminate|].
  intro H. split; [discriminate|]. now inversion H.
Qed.

Lemma concat_axis1_wf (objs : list obj) (c : DataFrame) :
  pd.concat_axis1 objs = Ok c -> wf_frame c.
Proof.
  intro H. apply concat_axis1_Ok in H. destruct H as [_ ->].
  unfold wf_frame. cbn [index data].
  apply Forall_forall. intros col Hin.
  apply in_flat_map in Hin. destruct Hin as (f & _ & Hin).
  apply in_map_iff in Hin. destruct Hin as (col0 & <- & _).
  unfold pd.reindex_column. simpl. now rewrite length_map.
Qed.

Lemma combine_seq_snd {A} (l : list A) (a : nat) :
  map snd (combine (seq a (List.length l)) l) = l.
Proof.
  revert a. induction l as [|x l IH]; intro a; simpl; [reflexivity|].
  now rewrite IH.
Qed.

Lemma transpose_columns (d : DataFrame) :
  columns (pd.transpose d) = index d.
Proof.
  unfold columns, pd.transpose. cbn [data]. rewrite map_map. simpl.
  apply combine_seq_snd.
Qed.

Lemma transpose_wf (d : DataFrame) : wf_frame (pd.transpose d).
Proof.
  unfold wf_frame, pd.transpose. cbn [index data].
  apply Forall_forall. intros col Hin.
  apply in_map_iff in Hin. destruct Hin as (il & <- & _). simpl.
  unfold columns. now rewrite !length_map.
Qed.

Lemma RangeIndex_length (n : nat) : List.length (pd.RangeIndex n) = n.
Proof. unfold pd.RangeIndex. now rewrite length_map, length_seq. Qed.

Lemma reset_index_wf (d r : DataFrame) :
  wf_frame d -> pd.reset_index d = Ok r -> wf_frame r.
Proof.
  unfold pd.reset_index, wf_frame. intros W H.
  destruct (pd.mem _ (columns d)) in H; [discriminate|].
  inversion H; subst; clear H. cbn [index data].
  rewrite RangeIndex_length. constructor; [simpl; now rewrite length_map|exact W].
Qed.

Lemma multi_station_info_wf (stids : list value) (fields : bool) (w : World)
      (info : DataFrame) :
  snd (CDEC.multi_station_info stids fields w) = Ok info -> wf_frame info.
Proof.
  rewrite multi_station_info_spec. simpl.
  destruct (pd.concat_axis1 _) as [c|e] eqn:E; simpl; [|discriminate].
  apply reset_index_wf, transpose_wf.
Qed.

(* ================================================================== *)
(** ** The projection onto the canonical columns *)

Lemma getitem_found (d : DataFrame) (c : label) (vs : list value) :
  pd.find_column c (data d) = Some vs ->
  pd.getitem d c = Ok {| name := c; s_index := index d; values := vs |}.
Proof. unfold pd.getitem. now intros ->. Qed.

Lemma getitem_missing (d : DataFrame) (c : label) :
  pd.find_column c (data d) = None -> pd.getitem d c = Raise (KeyError c).
Proof. unfold pd.getitem. now intros ->. Qed.

Lemma find_column_length (d : DataFrame) (c : label) (vs : list value) :
  wf_frame d -> pd.find_column c (data d) = Some vs ->
  List.length vs = List.length (index d).
Proof.
  intros W H. apply find_column_In in H.
  unfold wf_frame in W. rewrite Forall_forall in W. exact (W _ H).
Qed.

Ltac set_series :=
  rewrite setitem_series_same_index;
  [ cbn [index data s_index values name rbind]
  | unfold wf_series; cbn [values s_index index];
    eapply find_column_length; eassumption
  | cbn [index data s_index]; auto ].

Lemma project_ok (info : DataFrame) (lat id lon nm el ag : list value) :
  wf_frame info ->
  pd.find_column (LStr "LATITUDE") (data info) = Some lat ->
  pd.find_column (LStr "STATION_ID") (data info) = Some id ->
  pd.find_column (LStr "LONGITUDE") (data info) = Some lon ->
  pd.find_column (LStr "STATION_NAME") (data info) = Some nm ->
  pd.find_column (LStr "ELEVATION") (data info) = Some el ->
  pd.find_column (LStr "AGENCY_NAME") (data info) = Some ag ->
  CDEC.project info = Ok (canonical (index info) lat id lon nm el ag).
Proof.
  intros W H1 H2 H3 H4 H5 H6.
  unfold CDEC.project, CDEC.conversion.
  cbn [fold_left rbind fst snd].
  rewrite (getitem_found _ _ _ H1), (getitem_found _ _ _ H2),
    (getitem_found _ _ _ H3), (getitem_found _ _ _ H4),
    (getitem_found _ _ _ H5), (getitem_found _ _ _ H6).
  cbn [rbind].
  set_series. set_series. set_series. set_series. set_series. set_series.
  unfold pd.getitem at 1. simpl pd.find_column. cbn [rbind].
  set_series.
  unfold pd.getitem at 1. simpl pd.find_column. cbn [rbind].
  set_series.
  reflexivity.
Qed.

Ltac project_fails H :=
  exfalso; revert H; unfold CDEC.project, CDEC.conversion;
  cbn [fold_left rbind fst snd];
  repeat match goal with
         | E : pd.find_column ?c (data ?d) = Some _ |- _ =>
             rewrite (getitem_found _ _ _ E)
         | E : pd.find_column ?c (data ?d) = None |- _ =>
             rewrite (getitem_missing _ _ E)
         end;
  cbn [rbind]; repeat set_series; discriminate.

Lemma project_inv (info DF : DataFrame) :
  wf_frame info -> CDEC.project info = Ok DF ->
  exists lat id lon nm el ag,
    pd.find_column (LStr "LATITUDE") (data info) = Some lat
    /\ pd.find_column (LStr "STATION_ID") (data info) = Some id
    /\ pd.find_column (LStr "LONGITUDE") (data info) = Some lon
    /\ pd.find_column (LStr "STATION_NAME") (data info) = Some nm
    /\ pd.find_column (LStr "ELEVATION") (data info) = Some el
    /\ pd.find_column (LStr "AGENCY_NAME") (data info) = Some ag
    /\ DF = canonical (index info) lat id lon nm el ag.
Proof.
  intros W H.
  destruct (pd.find_column (LStr "LATITUDE") (data info)) as [lat|] eqn:E1;
    [|project_fails H].
  destruct (pd.find_column (LStr "STATION_ID") (data info)) as [id|] eqn:E2;
    [|project_fails H].
  destruct (pd.find_column (LStr "LONGITUDE") (data info)) as [lon|] eqn:E3;
    [|project_fails H].
  destruct (pd.find_column (LStr "STATION_NAME") (data info)) as [nm|] eqn:E4;
    [|project_fails H].
  destruct (pd.find_column (LStr "ELEVATION") (data info)) as [el|] eqn:E5;
    [|project_fails H].
  destruct (pd.find_column (LStr "AGENCY_NAME") (data info)) as [ag|] eqn:E6;
    [|project_fails H].
  exists lat, id, lon, nm, el, ag. repeat (split; [reflexivity|]).
  rewrite (project_ok info lat id lon nm el ag W E1 E2 E3 E4 E5 E6) in H.
  now inversion H.
Qed.

(* ================================================================== *)
(** ** Runs of [metadata] *)

Lemma run_cases (n : Net) :
  CDEC.run n =
  match all_stations n with
  | None => (after n [GetAllStations], Raise ConnectionError)
  | Some r =>
      match directory_ids r with
      | Raise e => (after n [GetAllStations], Raise e)
      | Ok stids =>
          match station_table n stids with
          | Raise e =>
              (after n (GetAllStations :: map GetStationInfo stids), Raise e)
          | Ok info =>
              match CDEC.project info with
              | Raise e =>
                  (after n (GetAllStations :: map GetStationInfo stids), Raise e)
              | Ok DF =>
                  (after n (GetAllStations :: map GetStationInfo stids
                              ++ [InsertData (pd.where_notnull_None DF)
                                             "CDEC metadata" true]),
                   Ok tt)
              end
          end
      end
  end.
Proof.
  unfold CDEC.run, CDEC.metadata, bind, requests.get_all_stations, after.
  cbn [net trace].
  destruct (all_stations n) as [r|]; [|reflexivity].
  unfold directory_ids, lift.
  destruct (CDEC.station_frame r) as [df|e]; cbn [rbind]; [|reflexivity].
  destruct (pd.getitem df (LStr "STATION_ID")) as [col|e]; cbn [rbind];
    [|reflexivity].
  rewrite multi_station_info_spec. unfold station_table, emit. cbn [net trace].
  destruct (rbind (pd.concat_axis1 _) _) as [info|e]; [|reflexivity].
  destruct (CDEC.project info) as [DF|e]; [|reflexivity].
  unfold insert_data, emit. cbn [net trace]. rewrite <- app_assoc. reflexivity.
Qed.

Lemma station_table_wf (n : Net) (stids : list value) (info : DataFrame) :
  station_table n stids = Ok info -> wf_frame info.
Proof.
  unfold station_table.
  destruct (pd.concat_axis1 _) as [c|e]; cbn [rbind]; [|discriminate].
  apply reset_index_wf, transpose_wf.
Qed.

Lemma sunk_app (n : Net) (evs evs' : list event) :
  CDEC.sunk (after n (evs ++ evs'))
  = CDEC.sunk (after n evs) ++ CDEC.sunk (after n evs').
Proof. unfold CDEC.sunk, after. cbn [trace]. apply flat_map_app. Qed.

Lemma sunk_requests (n : Net) (stids : list value) :
  CDEC.sunk (after n (GetAllStations :: map GetStationInfo stids)) = [].
Proof.
  unfold CDEC.sunk, after. cbn [trace flat_map app].
  induction stids as [|s stids IH]; simpl; [reflexivity|exact IH].
Qed.

(** A table reaches the database only at the end of a run in which every
    step succeeded. *)
Lemma sunk_inv (n : Net) (T : DataFrame) :
  In T (CDEC.sunk (fst (CDEC.run n))) ->
  exists r stids info DF,
    all_stations n = Some r
    /\ directory_ids r = Ok stids
    /\ station_table n stids = Ok info
    /\ CDEC.project info = Ok DF
    /\ T = pd.where_notnull_None DF
    /\ CDEC.run n
       = (after n (GetAllStations :: map GetStationInfo stids
                     ++ [InsertData T "CDEC metadata" true]), Ok tt).
Proof.
  rewrite run_cases.
  destruct (all_stations n) as [r|] eqn:Ea; [|intros []].
  destruct (directory_ids r) as [stids|e] eqn:Ed; [|intros []].
  destruct (station_table n stids) as [info|e] eqn:Et.
  2:{ cbn [fst]. rewrite sunk_requests. intros []. }
  destruct (CDEC.project info) as [DF|e] eqn:Ep.
  2:{ cbn [fst]. rewrite sunk_requests. intros []. }
  cbn [fst]. rewrite app_comm_cons, sunk_app, sunk_requests. simpl.
  intros [<-|[]]. exists r, stids, info, DF.
  repeat split; try assumption; reflexivity.
Qed.

(* ================================================================== *)
(** ** The table of [multi_station_info], cell by cell *)

Lemma uniq_In (x : label) (ls : list label) : In x (pd.uniq ls) <-> In x ls.
Proof.
  induction ls as [|l ls IH]; simpl; [tauto|].
  rewrite filter_In, IH. split.
  - intros [H|[H _]]; auto.
  - intros [H|H]; [now left|].
    destruct (label_eqb l x) eqn:E.
    + left. now apply label_eqb_eq.
    + right. now split.
Qed.

Lemma nth_map_at {A B} (h : A -> B) (l : list A) (i : nat) (x : A) (d : B) :
  nth_error l i = Some x -> nth i (map h l) d = h x.
Proof.
  revert i. induction l as [|y l IH]; intros [|i]; simpl; try discriminate.
  - intro H. now inversion H.
  - apply IH.
Qed.

(** Looking a label up in the columns that [transpose] builds. *)
Lemma find_column_numbered (F : nat -> list value) (U : list label) (a : nat)
      (x : label) :
  In x U ->
  exists i,
    nth_error U i = Some x
    /\ pd.find_column x (map (fun il => (snd il, F (fst il)))
                            (combine (seq a (List.length U)) U))
       = Some (F (a + i)%nat).
Proof.
  revert a. induction U as [|l U IH]; intros a Hin; [destruct Hin|].
  simpl. destruct (label_eqb x l) eqn:E.
  - apply label_eqb_eq in E. subst l. exists 0%nat. split; [reflexivity|].
    now rewrite Nat.add_0_r.
  - apply label_eqb_neq in E. destruct Hin as [Hin|Hin]; [congruence|].
    destruct (IH (S a) Hin) as (i & Hi & Hf). exists (S i). split; [exact Hi|].
    rewrite Hf. f_equal. f_equal. lia.
Qed.

Lemma find_column_numbered_None (F : nat -> list value) (U : list label)
      (a : nat) (x : label) :
  ~ In x U ->
  pd.find_column x (map (fun il => (snd il, F (fst il)))
                        (combine (seq a (List.length U)) U)) = None.
Proof.
  intro H. apply find_column_None. rewrite map_map. simpl.
  now rewrite combine_seq_snd.
Qed.

Lemma nth_reindexed (U : list label) (frames : list DataFrame) (i : nat)
      (x : label) :
  nth_error U i = Some x ->
  map (fun c : label * list value => nth i (snd c) VNaN)
      (flat_map (fun f => map (pd.reindex_column U (index f)) (data f)) frames)
  = flat_map (fun f => map (fun col => pd.at_label (index f) (snd col) x) (data f))
             frames.
Proof.
  intro Hi. induction frames as [|f frames IH]; simpl; [reflexivity|].
  rewrite map_app, IH. f_equal. rewrite map_map.
  apply map_ext. intro col. unfold pd.reindex_column. simpl.
  now apply nth_map_at.
Qed.

Lemma transposed_column (objs : list obj) (c : DataFrame) (x : label) :
  pd.concat_axis1 objs = Ok c ->
  pd.find_column x (data (pd.transpose c))
  = if pd.mem x (row_labels objs) then Some (cells_at x objs) else None.
Proof.
  intro H. apply concat_axis1_Ok in H. destruct H as [_ ->].
  unfold pd.transpose. cbn [index data]. fold (row_labels objs).
  set (F := fun i : nat =>
              map (fun c : label * list value => nth i (snd c) VNaN)
                  (flat_map (fun f => map (pd.reindex_column (row_labels objs)
                                                             (index f)) (data f))
                            (map pd.to_frame objs))).
  change (pd.find_column x
            (map (fun il => (snd il, F (fst il)))
                 (combine (seq 0 (List.length (row_labels objs)))
                          (row_labels objs)))
          = if pd.mem x (row_labels objs) then Some (cells_at x objs) else None).
  destruct (pd.mem x (row_labels objs)) eqn:E.
  - apply mem_In in E.
    destruct (find_column_numbered F (row_labels objs) 0 x E) as (i & Hi & Hf).
    rewrite Hf. simpl. f_equal. unfold F. now apply nth_reindexed.
  - apply mem_false in E.
    exact (find_column_numbered_None F (row_labels objs) 0 x E).
Qed.

Lemma reset_index_Ok (d r : DataFrame) :
  pd.reset_index d = Ok r ->
  exists nm,
    (nm = "index" \/ nm = "level_0")
    /\ ~ In (LStr nm) (columns d)
    /\ r = {| index := pd.RangeIndex (List.length (index d));
              data := (LStr nm, map label_value (index d)) :: data d |}.
Proof.
  unfold pd.reset_index. intro H.
  destruct (pd.mem (LStr "index") (columns d)) eqn:E1.
  - destruct (pd.mem (LStr "level_0") (columns d)) eqn:E2; [discriminate|].
    exists "level_0". apply mem_false in E2. inversion H. auto.
  - rewrite E1 in H. exists "index". apply mem_false in E1. inversion H. auto.
Qed.

Lemma reset_index_when (d : DataFrame) :
  ~ (In (LStr "index") (columns d) /\ In (LStr "level_0") (columns d)) ->
  exists r, pd.reset_index d = Ok r.
Proof.
  unfold pd.reset_index. intro H.
  destruct (pd.mem (LStr "index") (columns d)) eqn:E1.
  - destruct (pd.mem (LStr "level_0") (columns d)) eqn:E2; [|eauto].
    exfalso. apply H. split; now apply mem_In.
  - rewrite E1. eauto.
Qed.

(** A column of the table that [multi_station_info] returns, for a label
    other than the two that [reset_index] may introduce. *)
Lemma table_column (objs : list obj) (info : DataFrame) (x : string) :
  rbind (pd.concat_axis1 objs) (fun c => pd.reset_index (pd.transpose c))
  = Ok info ->
  x <> "index" -> x <> "level_0" ->
  pd.find_column (LStr x) (data info)
  = if pd.mem (LStr x) (row_labels objs)
    then Some (cells_at (LStr x) objs) else None.
Proof.
  intros H N1 N2.
  destruct (pd.concat_axis1 objs) as [c|e] eqn:Ec; cbn [rbind] in H;
    [|discriminate].
  apply reset_index_Ok in H. destruct H as (nm & Hnm & _ & ->).
  cbn [data pd.find_column].
  assert (label_eqb (LStr x) (LStr nm) = false) as ->.
  { apply label_eqb_neq. intro E. inversion E. destruct Hnm; congruence. }
  now apply transposed_column.
Qed.

(* ================================================================== *)
(** ** What a response contributes in summary mode *)

Lemma ok_200 (r : Response) : status_code r = 200 -> requests.ok r = true.
Proof. unfold requests.ok. now intros ->. Qed.

Lemma kept_false_cases (rs : option Response) :
  kept false rs
  = match records_of rs with
    | rec0 :: rest => [OSeries (first_row rec0 rest)]
    | [] => []
    end.
Proof.
  unfold kept, records_of, CDEC.handle_response.
  destruct rs as [r|]; [|reflexivity].
  destruct (status_code r =? 200) eqn:Es.
  2: now destruct (requests.ok r).
  apply Z.eqb_eq in Es. rewrite (ok_200 r Es).
  unfold CDEC.try_body, CDEC.station_frame, try_pass, bind, lift.
  destruct (text r) as [[|[[|v|records]|]]|]; try reflexivity.
  destruct records as [|rec0 rest]; [reflexivity|].
  cbn [json.loads getitem_STATION pd.new_DataFrame rbind].
  unfold pd.iloc0, pd.from_records, pd.RangeIndex, first_row, columns.
  cbn [index data List.length seq map].
  rewrite !map_map. cbn [fst snd map hd].
  rewrite map_id.
  unfold CDEC.append, modify, ret. cbn [app].
  match goal with
  | |- fst (match (match ?g with Ok _ => _ | Raise _ => _ end) with _ => _ end) = _ =>
      destruct g as [ids|e]; [destruct (pd.series_getitem ids (LInt 0))|];
      reflexivity
  end.
Qed.

Lemma at_label_map (h : label -> value) (U : list label) (x : label) :
  pd.at_label U (map h U) x = if pd.mem x U then h x else VNaN.
Proof.
  induction U as [|l U IH]; simpl; [reflexivity|].
  destruct (label_eqb x l) eqn:E; simpl; [|exact IH].
  apply label_eqb_eq in E. now subst.
Qed.

Lemma dict_get_absent (k : string) (r : dict) :
  ~ In (LStr k) (pd.keys r) -> dict_get k r = None.
Proof.
  induction r as [|[k' v] r IH]; simpl; [reflexivity|].
  intro H. destruct (String.eqb k k') eqn:E.
  - apply String.eqb_eq in E. subst. exfalso. apply H. now left.
  - apply IH. intro H'. apply H. now right.
Qed.

(** The cell of the first row under a field name is the first record's
    value, NaN when the first record lacks the field. *)
Lemma first_row_cell (rec0 : dict) (rest : list dict) (k : string) :
  pd.at_label (s_index (first_row rec0 rest)) (values (first_row rec0 rest))
              (LStr k)
  = pd.cell k rec0.
Proof.
  unfold first_row. cbn [s_index values]. rewrite at_label_map.
  destruct (pd.mem _ _) eqn:E; [reflexivity|].
  apply mem_false in E. rewrite uniq_In in E. unfold pd.cell.
  rewrite dict_get_absent; [reflexivity|].
  intro H. apply E. cbn [flat_map]. apply in_or_app. now left.
Qed.

Lemma cells_at_app (x : label) (a b : list obj) :
  cells_at x (a ++ b) = cells_at x a ++ cells_at x b.
Proof. unfold cells_at. now rewrite map_app, flat_map_app. Qed.

Lemma cells_at_kept (k : string) (res : list (option Response)) :
  cells_at (LStr k) (flat_map (kept false) res)
  = map (pd.cell k) (flat_map first_record res).
Proof.
  induction res as [|rs res IH]; [reflexivity|].
  cbn [flat_map]. rewrite cells_at_app, map_app, IH. f_equal.
  rewrite kept_false_cases. unfold first_record.
  destruct (records_of rs) as [|rec0 rest]; [reflexivity|].
  unfold cells_at. cbn [map flat_map pd.to_frame data index snd app].
  now rewrite first_row_cell.
Qed.

(* ================================================================== *)
(** ** Properties of [multi_station_info] *)

Lemma soft_failure_kept (fields : bool) (rs : option Response) :
  soft_failure rs -> kept fields rs = [].
Proof.
  unfold kept, CDEC.handle_response. intros [|r Hs|r e He]; [reflexivity| |].
  - apply Z.eqb_neq in Hs. rewrite Hs. now destruct (requests.ok r).
  - destruct (requests.ok r); [|reflexivity].
    destruct (status_code r =? 200); [|reflexivity].
    unfold CDEC.try_body, try_pass, bind, lift. now rewrite He.
Qed.

(** C1.  When the loop of [multi_station_info] leaves the list [df]
    empty (no station was fetched and parsed), the call raises the
    ValueError of [pd.concat], "No objects to concatenate"; it returns no
    table. *)
Theorem no_station_collected_raises
        (stids : list value) (fields : bool) (w w' : World)
        (res : list (option Response)) :
  grequests.map (CDEC.build_requests stids) 1 w = (w', Ok res) ->
  fst (CDEC.collect fields res) = [] ->
  CDEC.multi_station_info stids fields w
  = (w', Raise (ValueError "No objects to concatenate")).
Proof.
  intros Hmap Hdf. unfold CDEC.multi_station_info, bind. rewrite Hmap.
  rewrite collect_spec in *. cbn [fst] in Hdf. rewrite Hdf. reflexivity.
Qed.

Lemma no_station_collected_raises_witness :
  CDEC.multi_station_info [VStr "A"] false (after http500_net [])
  = (after http500_net [GetStationInfo (VStr "A")],
     Raise (ValueError "No objects to concatenate")).
Proof.
  apply (no_station_collected_raises [VStr "A"] false (after http500_net [])
           (after http500_net [GetStationInfo (VStr "A")]) [server_error]);
    reflexivity.
Defined.

(** C4.  For [N] station identifiers [grequests.map] hands back [N]
    answers, and the loop collects at most one object per answer: the
    list [df] has between 0 and [N] entries. *)
Theorem collects_at_most_one_per_station
        (stids : list value) (fields : bool) (w w' : World)
        (res : list (option Response)) :
  grequests.map (CDEC.build_requests stids) 1 w = (w', Ok res) ->
  List.length res = List.length stids
  /\ (0 <= List.length (fst (CDEC.collect fields res)) <= List.length stids)%nat.
Proof.
  intro Hmap. rewrite grequests_map_build in Hmap. inversion Hmap; subst.
  assert (List.length (responses (net w) stids) = List.length stids) as Hlen.
  { unfold responses. now rewrite length_map, length_combine, length_seq, Nat.min_id. }
  split; [exact Hlen|]. rewrite collect_spec. cbn [fst].
  pose proof (flat_map_kept_length fields (responses (net w) stids)). lia.
Qed.

Lemma collects_at_most_one_per_station_witness :
  List.length (responses abc_net [VStr "A"; VStr "B"; VStr "C"]) = 3%nat
  /\ (0 <= List.length
             (fst (CDEC.collect false
                     (responses abc_net [VStr "A"; VStr "B"; VStr "C"])))
      <= 3)%nat.
Proof.
  apply (collects_at_most_one_per_station
           [VStr "A"; VStr "B"; VStr "C"] false (after abc_net [])
           (after abc_net (map GetStationInfo [VStr "A"; VStr "B"; VStr "C"]))).
  reflexivity.
Defined.

(** C5.  A station whose answer is missing, whose status is not 200, or
    whose payload does not parse into a frame is skipped silently: its
    turn of the loop ends normally and leaves [df] as it was, so the
    station adds no entry to what the loop collects. *)
Theorem failed_station_is_skipped (fields : bool) (rs : option Response) :
  soft_failure rs ->
  (forall df, CDEC.handle_response fields rs df = (df, Ok tt))
  /\ (forall before behind,
         CDEC.collect fields (before ++ rs :: behind)
         = CDEC.collect fields (before ++ behind)).
Proof.
  intro H. apply (soft_failure_kept fields) in H. split.
  - intro df. rewrite handle_response_spec, H. now rewrite app_nil_r.
  - intros before behind. rewrite !collect_spec, !flat_map_app.
    cbn [flat_map]. now rewrite H.
Qed.

Lemma failed_station_is_skipped_witness :
  (forall df, CDEC.handle_response false server_error df = (df, Ok tt))
  /\ (forall before behind,
         CDEC.collect false (before ++ server_error :: behind)
         = CDEC.collect false (before ++ behind)).
Proof.
  apply (failed_station_is_skipped false server_error).
  apply bad_status. simpl. lia.
Defined.

(** When every answer is a soft failure the loop collects nothing. *)
Lemma all_failed_collects_nothing (fields : bool)
      (res : list (option Response)) :
  Forall soft_failure res -> CDEC.collect fields res = ([], Ok tt).
Proof.
  intro H. rewrite collect_spec. f_equal.
  induction H as [|rs res Hrs _ IH]; [reflexivity|].
  cbn [flat_map]. now rewrite (soft_failure_kept fields rs Hrs), IH.
Qed.

(** In summary mode an empty STATION array is skipped as well: the
    IndexError of [d.iloc[0]] comes before the append. *)
Lemma empty_station_array_skipped_in_summary_mode (df : list obj) :
  CDEC.handle_response false (station_reply []) df = (df, Ok tt).
Proof. rewrite handle_response_spec. cbn. now rewrite app_nil_r. Qed.

(** An exception raised after the append is swallowed too, but the entry
    stays: a record without STATION_ID fails in the argument of the debug
    message only. *)
Lemma exception_after_append_keeps_entry :
  snd (CDEC.try_body false
         {| status_code := 200;
            text := Some (DObject (Some (SRecords [[("SENS_NO", VInt 1)]]))) |}
         [])
  = Raise (KeyError (LStr "STATION_ID"))
  /\ kept false (station_reply [[("SENS_NO", VInt 1)]])
     = [OSeries (first_row [("SENS_NO", VInt 1)] [])].
Proof. split; reflexivity. Qed.

(** No turn of the loop lets an exception through, whatever the answer. *)
Lemma no_station_exception_propagates (fields : bool)
      (rs : option Response) (df : list obj) :
  snd (CDEC.handle_response fields rs df) = Ok tt.
Proof. now rewrite handle_response_spec. Qed.

(** In summary mode a station adds the first of its records only. *)
Lemma summary_mode_keeps_first_record (rec0 : dict) (rest : list dict) :
  kept false (station_reply (rec0 :: rest)) = [OSeries (first_row rec0 rest)].
Proof. now rewrite kept_false_cases. Qed.

(** In summary mode the same station gives one row, its first record,
    with the fields as columns. *)
Lemma summary_mode_row_is_first_record :
  snd (CDEC.multi_station_info [VStr "A"] false (after two_sensor_net []))
  = Ok {| index := [LInt 0];
          data := [ (LStr "index", [VInt 0]);
                    (LStr "STATION_ID", [VStr "A"]);
                    (LStr "SENS_NO", [VInt 1]) ] |}.
Proof. reflexivity. Qed.

(** C2.  In fields mode the table of a station with two sensor records
    has one row per field and one column per record (labelled 0 and 1):
    the records are not rows, and no column holds the identifier. *)
Theorem fields_mode_rows_are_fields :
  snd (CDEC.multi_station_info [VStr "A"] true (after two_sensor_net []))
  = Ok {| index := [LInt 0; LInt 1];
          data := [ (LStr "index", [VStr "STATION_ID"; VStr "SENS_NO"]);
                    (LInt 0, [VStr "A"; VInt 1]);
                    (LInt 1, [VStr "A"; VInt 2]) ] |}.
Proof. reflexivity. Qed.

(* ================================================================== *)
(** ** Properties of [metadata] *)

Lemma directory_failure_ids (n : Net) (e : exn) :
  directory_failure n e ->
  all_stations n = None /\ e = ConnectionError
  \/ exists r, all_stations n = Some r /\ directory_ids r = Raise e.
Proof.
  intros [H|r e' Ha Hf|r df e' Ha Hf Hg]; [now left| |]; right; exists r;
    (split; [exact Ha|]); unfold directory_ids; rewrite Hf; cbn [rbind];
    [reflexivity|now rewrite Hg].
Qed.

(** C9.  When the directory fetch fails (the request raises, the payload
    does not parse into a frame, or the frame has no identifier column),
    [metadata] raises that exception with the directory request as its
    only action: no per-station request is ever issued. *)
Theorem directory_failure_stops_run (n : Net) (e : exn) :
  directory_failure n e ->
  CDEC.run n = (after n [GetAllStations], Raise e)
  /\ forall s, ~ In (GetStationInfo s) (trace (fst (CDEC.run n))).
Proof.
  intro H. apply directory_failure_ids in H.
  assert (CDEC.run n = (after n [GetAllStations], Raise e)) as Hrun.
  { rewrite run_cases. destruct H as [[-> ->]|(r & -> & ->)]; reflexivity. }
  split; [exact Hrun|]. intro s. rewrite Hrun. simpl.
  intros [H'|[]]. discriminate.
Qed.

Lemma directory_failure_stops_run_witness :
  CDEC.run no_directory_net
  = (after no_directory_net [GetAllStations], Raise ConnectionError)
  /\ forall s, ~ In (GetStationInfo s) (trace (fst (CDEC.run no_directory_net))).
Proof.
  apply (directory_failure_stops_run no_directory_net ConnectionError).
  apply request_failed. reflexivity.
Defined.

(** C7.  In the frame that [metadata] projects out of the table of
    [multi_station_info], the column reported_lat is the column latitude
    and the column reported_long is the column longitude, cell by cell;
    the null pass that follows keeps them equal. *)
Theorem reported_coordinates_are_copies
        (stids : list value) (fields : bool) (w : World)
        (info DF : DataFrame) :
  snd (CDEC.multi_station_info stids fields w) = Ok info ->
  CDEC.project info = Ok DF ->
  (column DF "latitude" <> None
   /\ column DF "reported_lat" = column DF "latitude"
   /\ column DF "longitude" <> None
   /\ column DF "reported_long" = column DF "longitude")
  /\ column (pd.where_notnull_None DF) "reported_lat"
     = column (pd.where_notnull_None DF) "latitude"
  /\ column (pd.where_notnull_None DF) "reported_long"
     = column (pd.where_notnull_None DF) "longitude".
Proof.
  intros Hinfo Hp. apply multi_station_info_wf in Hinfo.
  destruct (project_inv info DF Hinfo Hp)
    as (lat & id & lon & nm & el & ag & _ & _ & _ & _ & _ & _ & ->).
  unfold column. cbn. repeat split; discriminate.
Qed.

Lemma reported_coordinates_are_copies_witness :
  (column (canonical [LInt 0] [VInt 10] [VStr "A"] [VInt 20] [VStr "A"]
                     [VNone] [VStr "DWR"]) "reported_lat" = Some [VInt 10])
  /\ column (canonical [LInt 0] [VInt 10] [VStr "A"] [VInt 20] [VStr "A"]
                       [VNone] [VStr "DWR"]) "reported_long" = Some [VInt 20].
Proof.
  destruct (reported_coordinates_are_copies
              [VStr "A"] false
              (after {| all_stations := None;
                        station_info := fun _ _ =>
                          station_reply [full_record "A" 10 20] |} [])
              {| index := [LInt 0];
                 data := (LStr "index", [VInt 0])
                           :: map (fun kv => (LStr (fst kv), [snd kv]))
                                  (full_record "A" 10 20) |}
              (canonical [LInt 0] [VInt 10] [VStr "A"] [VInt 20] [VStr "A"]
                         [VNone] [VStr "DWR"])
              eq_refl eq_refl) as [(_ & Hlat & _ & Hlon) _].
  split; [exact Hlat|exact Hlon].
Defined.

(** Whatever reaches the database has the canonical columns. *)
Lemma sunk_table_columns (n : Net) (T : DataFrame) :
  In T (CDEC.sunk (fst (CDEC.run n))) -> columns T = canonical_columns.
Proof.
  intro H. apply sunk_inv in H.
  destruct H as (r & stids & info & DF & _ & _ & Ht & Hp & -> & _).
  apply station_table_wf in Ht.
  destruct (project_inv info DF Ht Hp)
    as (lat & id & lon & nm & el & ag & _ & _ & _ & _ & _ & _ & ->).
  reflexivity.
Qed.

Lemma collected_spec (n : Net) (stids : list value) :
  collected n stids = flat_map (kept false) (responses n stids).
Proof. unfold collected. now rewrite collect_spec. Qed.

Lemma row_labels_nonempty (objs : list obj) (x : label) :
  pd.mem x (row_labels objs) = true -> objs <> [].
Proof.
  intros H ->. apply mem_In in H. exact H.
Qed.

Lemma station_table_when (n : Net) (stids : list value) :
  collected n stids <> [] ->
  pd.mem (LStr "index") (row_labels (collected n stids))
  && pd.mem (LStr "level_0") (row_labels (collected n stids)) = false ->
  exists info, station_table n stids = Ok info.
Proof.
  unfold station_table. rewrite collected_spec. intros Hne Hcl.
  destruct (pd.concat_axis1 (flat_map (kept false) (responses n stids)))
    as [c|e] eqn:Ec.
  - cbn [rbind]. apply reset_index_when. rewrite transpose_columns.
    apply concat_axis1_Ok in Ec. destruct Ec as [_ ->]. cbn [index].
    fold (row_labels (flat_map (kept false) (responses n stids))).
    intros [H1 H2]. apply mem_In in H1, H2. rewrite H1, H2 in Hcl.
    discriminate.
  - exfalso. unfold pd.concat_axis1 in Ec.
    destruct (flat_map (kept false) (responses n stids));
      [now apply Hne|discriminate].
Qed.

(** C3, as the code has it.  When the directory is fetched, every source
    field of the conversion occurs among the fields of the stations that
    were collected (so at least one station succeeded), and those fields
    do not include both index and level_0, then [metadata] hands one table
    to the database and its columns are exactly the canonical ones. *)
Theorem complete_fields_give_canonical_columns
        (n : Net) (r : Response) (stids : list value) :
  all_stations n = Some r ->
  directory_ids r = Ok stids ->
  forallb (fun c => pd.mem (LStr (fst c)) (row_labels (collected n stids)))
          CDEC.conversion = true ->
  pd.mem (LStr "index") (row_labels (collected n stids))
  && pd.mem (LStr "level_0") (row_labels (collected n stids)) = false ->
  exists T,
    CDEC.sunk (fst (CDEC.run n)) = [T]
    /\ columns T = canonical_columns
    /\ snd (CDEC.run n) = Ok tt.
Proof.
  intros Ha Hd Hall Hcl.
  cbn [forallb CDEC.conversion fst] in Hall.
  repeat (apply andb_prop in Hall; destruct Hall as [? Hall]).
  assert (collected n stids <> []) as Hne
      by (eapply row_labels_nonempty; eassumption).
  destruct (station_table_when n stids Hne Hcl) as [info Ht].
  pose proof (station_table_wf _ _ _ Ht) as W.
  pose proof Ht as Hcols. unfold station_table in Hcols.
  rewrite <- collected_spec in Hcols.
  assert (forall x, x <> "index" -> x <> "level_0" ->
                    pd.mem (LStr x) (row_labels (collected n stids)) = true ->
                    pd.find_column (LStr x) (data info)
                    = Some (cells_at (LStr x) (collected n stids))) as Hcol.
  { intros x N1 N2 Hx. rewrite (table_column _ _ x Hcols N1 N2). now rewrite Hx. }
  rewrite run_cases, Ha, Hd, Ht.
  erewrite project_ok; [|exact W|apply Hcol; [discriminate|discriminate|assumption]..].
  eexists. cbn [fst snd].
  rewrite app_comm_cons, sunk_app, sunk_requests.
  repeat split.
Qed.

Lemma complete_fields_give_canonical_columns_witness :
  exists T,
    CDEC.sunk (fst (CDEC.run abc_net)) = [T]
    /\ columns T = canonical_columns
    /\ snd (CDEC.run abc_net) = Ok tt.
Proof.
  apply (complete_fields_give_canonical_columns abc_net
           {| status_code := 200;
              text := Some (DObject (Some (SRecords
                        [ [("STATION_ID", VStr "A")];
                          [("STATION_ID", VStr "B")];
                          [("STATION_ID", VStr "C")] ]))) |}
           [VStr "A"; VStr "B"; VStr "C"]); reflexivity.
Defined.

(** C3 as stated fails: a station succeeded, yet no table reaches the
    database, because no collected record carries LATITUDE. *)
Lemma one_success_without_fields_raises :
  collected id_only_net [VStr "A"] <> []
  /\ CDEC.sunk (fst (CDEC.run id_only_net)) = []
  /\ snd (CDEC.run id_only_net) = Raise (KeyError (LStr "LATITUDE")).
Proof. repeat split. discriminate. Qed.

Lemma filled_none_if_null (vs : list value) :
  filled (map none_if_null vs) = filled vs.
Proof.
  unfold filled. rewrite map_map. apply map_ext. intro v. now destruct v.
Qed.




(* ================================================================== *)
(** ** More on the loop of [multi_station_info] *)

Lemma kept_true_cases (rs : option Response) :
  kept true rs
  = match rs with
    | Some r =>
        if status_code r =? 200
        then match CDEC.station_frame r with
             | Ok d => [OFrame d]
             | Raise _ => []
             end
        else []
    | None => []
    end.
Proof.
  unfold kept, CDEC.handle_response.
  destruct rs as [r|]; [|reflexivity].
  destruct (status_code r =? 200) eqn:Es.
  2: now destruct (requests.ok r).
  apply Z.eqb_eq in Es. rewrite (ok_200 r Es).
  unfold CDEC.try_body, try_pass, bind, lift, CDEC.append, modify, ret.
  destruct (CDEC.station_frame r) as [d|e]; [|reflexivity].
  cbn [app].
  destruct (pd.getitem d (LStr "STATION_ID")) as [ids|e]; [|reflexivity].
  destruct (pd.series_getitem ids (LInt 0)); reflexivity.
Qed.

Lemma kept_false_frame (r : Response) (d : DataFrame) :
  status_code r = 200 -> CDEC.station_frame r = Ok d ->
  kept false (Some r)
  = match pd.iloc0 d with
    | Ok row => [OSeries row]
    | Raise _ => []
    end.
Proof.
  intros Hs Hf. unfold kept, CDEC.handle_response.
  rewrite (ok_200 r Hs), Hs. cbn [Z.eqb Pos.eqb].
  unfold CDEC.try_body, try_pass, bind, lift, CDEC.append, modify, ret.
  rewrite Hf. destruct (pd.iloc0 d) as [row|e]; [|reflexivity].
  cbn [app].
  destruct (pd.getitem d (LStr "STATION_ID")) as [ids|e]; [|reflexivity].
  destruct (pd.series_getitem ids (LInt 0)); reflexivity.
Qed.

(** A station with status 200 whose payload parses into the frame [d] is
    collected: in fields mode as the whole frame, even an empty one; in
    summary mode as the first row of [d], and not at all when [d] has no
    row.  Whether the frame has a STATION_ID column plays no part. *)
Theorem fetched_station_is_collected (r : Response) (d : DataFrame)
        (df : list obj) :
  status_code r = 200 ->
  CDEC.station_frame r = Ok d ->
  CDEC.handle_response true (Some r) df = (df ++ [OFrame d], Ok tt)
  /\ CDEC.handle_response false (Some r) df
     = (df ++ match pd.iloc0 d with
              | Ok row => [OSeries row]
              | Raise _ => []
              end, Ok tt).
Proof.
  intros Hs Hf. rewrite !handle_response_spec. split.
  - rewrite kept_true_cases. apply Z.eqb_eq in Hs. now rewrite Hs, Hf.
  - now rewrite (kept_false_frame r d Hs Hf).
Qed.

Lemma fetched_station_is_collected_witness :
  CDEC.handle_response true
    (Some {| status_code := 200; text := Some (DObject (Some SNull)) |}) []
  = ([] ++ [OFrame pd.empty], Ok tt)
  /\ CDEC.handle_response false
       (Some {| status_code := 200; text := Some (DObject (Some SNull)) |}) []
     = ([] ++ match pd.iloc0 pd.empty with
              | Ok row => [OSeries row]
              | Raise _ => []
              end, Ok tt).
Proof.
  apply (fetched_station_is_collected
           {| status_code := 200; text := Some (DObject (Some SNull)) |}
           pd.empty []); reflexivity.
Defined.

(** What the loop collects for a list of answers is what it collects for
    each answer, in the order of the answers: no answer changes what
    another one contributes. *)
Theorem collect_is_per_station (fields : bool)
        (res1 res2 : list (option Response)) :
  CDEC.collect fields (res1 ++ res2)
  = (fst (CDEC.collect fields res1) ++ fst (CDEC.collect fields res2), Ok tt).
Proof. rewrite !collect_spec. cbn [fst]. now rewrite flat_map_app. Qed.

(** Whatever the answers and however the call ends, [multi_station_info]
    sends exactly one request per identifier, in the order of the
    identifiers, and does nothing else to the outside world. *)
Theorem multi_station_info_requests (stids : list value) (fields : bool)
        (w : World) :
  fst (CDEC.multi_station_info stids fields w)
  = {| net := net w; trace := trace w ++ map GetStationInfo stids |}.
Proof. now rewrite multi_station_info_spec. Qed.

(* ================================================================== *)
(** ** The table of [multi_station_info], as a whole *)

Lemma concat_width (objs : list obj) (c : DataFrame) (x : label) :
  pd.concat_axis1 objs = Ok c ->
  List.length (data c) = List.length (cells_at x objs).
Proof.
  intro H. apply concat_axis1_Ok in H. destruct H as [_ ->].
  cbn [data]. unfold cells_at.
  generalize (pd.uniq (flat_map index (map pd.to_frame objs))). intro U.
  induction (map pd.to_frame objs) as [|f frames IH]; [reflexivity|].
  cbn [flat_map]. now rewrite !length_app, !length_map, IH.
Qed.

Lemma table_inv (objs : list obj) (info : DataFrame) :
  rbind (pd.concat_axis1 objs) (fun c => pd.reset_index (pd.transpose c))
  = Ok info ->
  exists c nm,
    pd.concat_axis1 objs = Ok c
    /\ (nm = "index" \/ nm = "level_0")
    /\ ~ In (LStr nm) (row_labels objs)
    /\ (nm = "level_0" -> In (LStr "index") (row_labels objs))
    /\ info = {| index := pd.RangeIndex (List.length (data c));
                 data := (LStr nm, map label_value (columns c))
                           :: data (pd.transpose c) |}.
Proof.
  destruct (pd.concat_axis1 objs) as [c|e] eqn:Ec; cbn [rbind];
    [|discriminate].
  intro H. exists c.
  assert (columns (pd.transpose c) = row_labels objs) as Hc.
  { rewrite transpose_columns. apply concat_axis1_Ok in Ec.
    destruct Ec as [_ ->]. reflexivity. }
  unfold pd.reset_index in H. rewrite Hc in H.
  assert (List.length (columns c) = List.length (data c)) as Hl
      by apply length_map.
  destruct (pd.mem (LStr "index") (row_labels objs)) eqn:E1.
  - destruct (pd.mem (LStr "level_0") (row_labels objs)) eqn:E2;
      [discriminate|].
    exists "level_0". apply mem_false in E2. apply mem_In in E1.
    injection H as <-. rewrite Hl. repeat split; auto.
  - rewrite E1 in H. exists "index". apply mem_false in E1.
    injection H as <-. rewrite Hl. repeat split; auto. discriminate.
Qed.

Lemma summary_labels (res : list (option Response)) (x : label) :
  In x (row_labels (flat_map (kept false) res)) <-> In x (fields_seen res).
Proof.
  unfold row_labels, fields_seen. rewrite uniq_In.
  induction res as [|rs res IH]; [reflexivity|].
  cbn [flat_map]. rewrite map_app, flat_map_app, !in_app_iff, IH.
  rewrite kept_false_cases.
  destruct (records_of rs) as [|rec0 rest]; [reflexivity|].
  cbn [map flat_map pd.to_frame index first_row s_index].
  rewrite app_nil_r, uniq_In. reflexivity.
Qed.

Lemma station_table_rows (n : Net) (stids : list value) (info : DataFrame) :
  station_table n stids = Ok info ->
  flat_map first_record (responses n stids) <> []
  /\ index info
     = pd.RangeIndex (List.length (flat_map first_record (responses n stids))).
Proof.
  intro H. unfold station_table in H.
  apply table_inv in H. destruct H as (c & nm & Hc & _ & _ & _ & ->).
  rewrite (concat_width _ _ (LStr "STATION_ID") Hc), cells_at_kept, length_map.
  cbn [index]. split; [|reflexivity].
  intro E. apply concat_axis1_Ok in Hc. destruct Hc as [Hne _].
  apply Hne. clear - E.
  induction (responses n stids) as [|rs res IH]; [reflexivity|].
  cbn [flat_map] in *. apply app_eq_nil in E. destruct E as [E1 E2].
  rewrite (IH E2), app_nil_r, kept_false_cases.
  unfold first_record in E1. now destruct (records_of rs).
Qed.

(** The table that [multi_station_info] returns in summary mode has one
    row per station that answered with status 200 and at least one record
    (so at least one row), labelled 0, 1, ...; every column has one cell
    per row. *)
Theorem summary_table_shape (stids : list value) (w : World)
        (info : DataFrame) :
  snd (CDEC.multi_station_info stids false w) = Ok info ->
  flat_map first_record (responses (net w) stids) <> []
  /\ index info
     = pd.RangeIndex
         (List.length (flat_map first_record (responses (net w) stids)))
  /\ wf_frame info.
Proof.
  intro H. pose proof (multi_station_info_wf _ _ _ _ H) as W.
  rewrite multi_station_info_spec in H. cbn [snd] in H.
  destruct (station_table_rows _ _ _ H) as [H1 H2]. auto.
Qed.

Lemma summary_table_shape_witness :
  flat_map first_record (responses abc_net [VStr "A"; VStr "B"; VStr "C"]) <> []
  /\ index (mkFrame
              [LInt 0; LInt 1]
              ((LStr "index", [VInt 0; VInt 0])
                 :: map (fun k => (LStr k,
                                   [pd.cell k (full_record "A" 10 20);
                                    pd.cell k (full_record "C" 30 40)]))
                        ["STATION_ID"; "LATITUDE"; "LONGITUDE";
                         "STATION_NAME"; "ELEVATION"; "AGENCY_NAME"]))
     = pd.RangeIndex
         (List.length
            (flat_map first_record
                      (responses abc_net [VStr "A"; VStr "B"; VStr "C"])))
  /\ wf_frame (mkFrame
                 [LInt 0; LInt 1]
                 ((LStr "index", [VInt 0; VInt 0])
                    :: map (fun k => (LStr k,
                                      [pd.cell k (full_record "A" 10 20);
                                       pd.cell k (full_record "C" 30 40)]))
                           ["STATION_ID"; "LATITUDE"; "LONGITUDE";
                            "STATION_NAME"; "ELEVATION"; "AGENCY_NAME"])).
Proof.
  assert (snd (CDEC.multi_station_info [VStr "A"; VStr "B"; VStr "C"] false
                 (after abc_net []))
          = Ok (mkFrame
                  [LInt 0; LInt 1]
                  ((LStr "index", [VInt 0; VInt 0])
                     :: map (fun k => (LStr k,
                                       [pd.cell k (full_record "A" 10 20);
                                        pd.cell k (full_record "C" 30 40)]))
                            ["STATION_ID"; "LATITUDE"; "LONGITUDE";
                             "STATION_NAME"; "ELEVATION"; "AGENCY_NAME"])))
    as H by (vm_compute; reflexivity).
  exact (summary_table_shape _ (after abc_net []) _ H).
Defined.

(** In the summary table a field name (other than index and level_0,
    which [reset_index] may introduce) is a column exactly when it occurs
    in a record of a collected station.  The column then has one cell per
    collected station, in request order, and the cell is null exactly
    when the first record of the station lacks the field or has null for
    it.  Looking up a field that is no column raises KeyError. *)
Theorem summary_table_column (stids : list value) (w : World)
        (info : DataFrame) (k : string) :
  snd (CDEC.multi_station_info stids false w) = Ok info ->
  k <> "index" -> k <> "level_0" ->
  (In (LStr k) (fields_seen (responses (net w) stids)) ->
   exists vs,
     column info k = Some vs
     /\ filled vs
        = filled (map (pd.cell k)
                      (flat_map first_record (responses (net w) stids))))
  /\ (~ In (LStr k) (fields_seen (responses (net w) stids)) ->
      pd.getitem info (LStr k) = Raise (KeyError (LStr k))).
Proof.
  intros H N1 N2. rewrite multi_station_info_spec in H. cbn [snd] in H.
  pose proof (table_column _ _ k H N1 N2) as Hc.
  rewrite cells_at_kept in Hc. split; intro Hin.
  - apply summary_labels, mem_In in Hin. unfold column.
    rewrite Hc, Hin. now eexists.
  - rewrite <- summary_labels, <- mem_false in Hin. rewrite Hin in Hc.
    now apply getitem_missing.
Qed.

Lemma summary_table_column_witness :
  (In (LStr "LATITUDE")
      (fields_seen (responses abc_net [VStr "A"; VStr "B"; VStr "C"])) ->
   exists vs,
     column (mkFrame
               [LInt 0; LInt 1]
               ((LStr "index", [VInt 0; VInt 0])
                  :: map (fun k => (LStr k,
                                    [pd.cell k (full_record "A" 10 20);
                                     pd.cell k (full_record "C" 30 40)]))
                         ["STATION_ID"; "LATITUDE"; "LONGITUDE";
                          "STATION_NAME"; "ELEVATION"; "AGENCY_NAME"]))
            "LATITUDE"
     = Some vs
     /\ filled vs
        = filled (map (pd.cell "LATITUDE")
                      (flat_map first_record
                         (responses abc_net [VStr "A"; VStr "B"; VStr "C"]))))
  /\ (~ In (LStr "LATITUDE")
        (fields_seen (responses abc_net [VStr "A"; VStr "B"; VStr "C"])) ->
      pd.getitem
        (mkFrame
           [LInt 0; LInt 1]
           ((LStr "index", [VInt 0; VInt 0])
              :: map (fun k => (LStr k,
                                [pd.cell k (full_record "A" 10 20);
                                 pd.cell k (full_record "C" 30 40)]))
                     ["STATION_ID"; "LATITUDE"; "LONGITUDE";
                      "STATION_NAME"; "ELEVATION"; "AGENCY_NAME"]))
        (LStr "LATITUDE")
      = Raise (KeyError (LStr "LATITUDE"))).
Proof.
  assert (snd (CDEC.multi_station_info [VStr "A"; VStr "B"; VStr "C"] false
                 (after abc_net []))
          = Ok (mkFrame
                  [LInt 0; LInt 1]
                  ((LStr "index", [VInt 0; VInt 0])
                     :: map (fun k => (LStr k,
                                       [pd.cell k (full_record "A" 10 20);
                                        pd.cell k (full_record "C" 30 40)]))
                            ["STATION_ID"; "LATITUDE"; "LONGITUDE";
                             "STATION_NAME"; "ELEVATION"; "AGENCY_NAME"])))
    as H by (vm_compute; reflexivity).
  assert ("LATITUDE" <> "index") as N1 by discriminate.
  assert ("LATITUDE" <> "level_0") as N2 by discriminate.
  exact (summary_table_column _ (after abc_net []) _ "LATITUDE" H N1 N2).
Defined.

Lemma station_frame_index (r : Response) (d : DataFrame) :
  CDEC.station_frame r = Ok d -> exists m, index d = pd.RangeIndex m.
Proof.
  unfold CDEC.station_frame.
  destruct (text r) as [[|[[|v|records]|]]|]; cbn; try discriminate;
    intro H; inversion H; subst; cbn [index].
  - now exists 0%nat.
  - now exists (List.length records).
Qed.

Lemma fields_labels_numbers (res : list (option Response)) (x : label) :
  In x (row_labels (flat_map (kept true) res)) -> is_number x.
Proof.
  unfold row_labels. rewrite uniq_In.
  induction res as [|rs res IH]; [intros []|].
  cbn [flat_map]. rewrite map_app, flat_map_app, in_app_iff.
  intros [H|H]; [|now apply IH]. clear IH.
  rewrite kept_true_cases in H. destruct rs as [r|]; [|destruct H].
  destruct (status_code r =? 200); [|destruct H].
  destruct (CDEC.station_frame r) as [d|e] eqn:Ef; [|destruct H].
  cbn [map flat_map pd.to_frame] in H. rewrite app_nil_r in H.
  apply station_frame_index in Ef. destruct Ef as [m Hm]. rewrite Hm in H.
  unfold pd.RangeIndex in H. apply in_map_iff in H.
  destruct H as (i & <- & _). now eexists.
Qed.

Lemma numbers_list (ls : list label) :
  (forall x, In x ls -> is_number x) -> exists nums, ls = map LInt nums.
Proof.
  induction ls as [|l ls IH]; intro H; [now exists []|].
  destruct (H l (or_introl eq_refl)) as [z ->].
  destruct IH as [nums ->]; [intros x Hx; apply H; now right|].
  now exists (z :: nums).
Qed.

(** In fields mode the columns of the returned table are index and then
    record numbers: the field names, STATION_ID among them, are values of
    the column index and never column labels, so looking a field up in
    the table raises KeyError. *)
Theorem fields_table_columns (stids : list value) (w : World)
        (info : DataFrame) :
  snd (CDEC.multi_station_info stids true w) = Ok info ->
  (exists nums, columns info = LStr "index" :: map LInt nums)
  /\ forall k, k <> "index" ->
               pd.getitem info (LStr k) = Raise (KeyError (LStr k)).
Proof.
  intro H. rewrite multi_station_info_spec in H. cbn [snd] in H.
  apply table_inv in H.
  destruct H as (c & nm & Hc & Hnm & _ & Hlevel & ->).
  assert (columns (pd.transpose c)
          = row_labels (flat_map (kept true) (responses (net w) stids))) as Hcols.
  { rewrite transpose_columns. apply concat_axis1_Ok in Hc.
    destruct Hc as [_ ->]. reflexivity. }
  assert (nm = "index") as ->.
  { destruct Hnm as [->| ->]; [reflexivity|].
    destruct (fields_labels_numbers _ _ (Hlevel eq_refl)) as [z Hz].
    discriminate. }
  destruct (numbers_list _ (fields_labels_numbers (responses (net w) stids)))
    as [nums Hnums].
  assert (columns {| index := pd.RangeIndex (List.length (data c));
                     data := (LStr "index", map label_value (columns c))
                               :: data (pd.transpose c) |}
          = LStr "index" :: map LInt nums) as Hall.
  { unfold columns at 1. cbn [data map fst].
    fold (columns (pd.transpose c)). now rewrite Hcols, Hnums. }
  split; [now exists nums|].
  intros k Hk. apply getitem_missing, find_column_None.
  fold (columns {| index := pd.RangeIndex (List.length (data c));
                   data := (LStr "index", map label_value (columns c))
                             :: data (pd.transpose c) |}).
  rewrite Hall. intros [E|E]; [inversion E; congruence|].
  apply in_map_iff in E. destruct E as (z & E & _). discriminate.
Qed.

Lemma fields_table_columns_witness :
  (exists nums,
      columns {| index := [LInt 0; LInt 1];
                 data := [ (LStr "index", [VStr "STATION_ID"; VStr "SENS_NO"]);
                           (LInt 0, [VStr "A"; VInt 1]);
                           (LInt 1, [VStr "A"; VInt 2]) ] |}
      = LStr "index" :: map LInt nums)
  /\ forall k, k <> "index" ->
               pd.getitem
                 {| index := [LInt 0; LInt 1];
                    data := [ (LStr "index", [VStr "STATION_ID"; VStr "SENS_NO"]);
                              (LInt 0, [VStr "A"; VInt 1]);
                              (LInt 1, [VStr "A"; VInt 2]) ] |}
                 (LStr k)
               = Raise (KeyError (LStr k)).
Proof.
  exact (fields_table_columns [VStr "A"] (after two_sensor_net []) _ eq_refl).
Defined.

(* ================================================================== *)
(** ** More on runs of [metadata] *)

Ltac project_raises :=
  unfold CDEC.project, CDEC.conversion;
  cbn [fold_left rbind fst snd];
  repeat match goal with
         | E : pd.find_column ?c (data ?d) = Some _ |- _ =>
             rewrite (getitem_found _ _ _ E)
         | E : pd.find_column ?c (data ?d) = None |- _ =>
             rewrite (getitem_missing _ _ E)
         end;
  cbn [rbind]; repeat set_series; reflexivity.

Ltac first_missing c :=
  exists c; split; [cbn; tauto|]; split; [assumption|project_raises].

Lemma project_missing (info : DataFrame) (c : string) :
  wf_frame info ->
  In c (map fst CDEC.conversion) ->
  pd.find_column (LStr c) (data info) = None ->
  exists c',
    In c' (map fst CDEC.conversion)
    /\ pd.find_column (LStr c') (data info) = None
    /\ CDEC.project info = Raise (KeyError (LStr c')).
Proof.
  intros W Hin Hc.
  destruct (pd.find_column (LStr "LATITUDE") (data info)) eqn:E1;
    [|first_missing "LATITUDE"].
  destruct (pd.find_column (LStr "STATION_ID") (data info)) eqn:E2;
    [|first_missing "STATION_ID"].
  destruct (pd.find_column (LStr "LONGITUDE") (data info)) eqn:E3;
    [|first_missing "LONGITUDE"].
  destruct (pd.find_column (LStr "STATION_NAME") (data info)) eqn:E4;
    [|first_missing "STATION_NAME"].
  destruct (pd.find_column (LStr "ELEVATION") (data info)) eqn:E5;
    [|first_missing "ELEVATION"].
  destruct (pd.find_column (LStr "AGENCY_NAME") (data info)) eqn:E6;
    [|first_missing "AGENCY_NAME"].
  exfalso. cbn in Hin.
  destruct Hin as [<-|[<-|[<-|[<-|[<-|[<-|[]]]]]]]; congruence.
Qed.

Lemma station_table_multi (n : Net) (stids : list value) (evs : list event) :
  snd (CDEC.multi_station_info stids false (after n evs))
  = station_table n stids.
Proof. now rewrite multi_station_info_spec. Qed.

(** A run of [metadata] that returns normally did, in this order: the
    directory request, one request per identifier of the directory in the
    order of the directory, and one insert, described as CDEC metadata and
    flagged as metadata. *)
Theorem successful_run_trace (n : Net) :
  snd (CDEC.run n) = Ok tt ->
  exists r stids T,
    all_stations n = Some r
    /\ directory_ids r = Ok stids
    /\ fst (CDEC.run n)
       = {| net := n;
            trace := GetAllStations :: map GetStationInfo stids
                       ++ [InsertData T "CDEC metadata" true] |}.
Proof.
  rewrite run_cases.
  destruct (all_stations n) as [r|] eqn:Ea; [|discriminate].
  destruct (directory_ids r) as [stids|e] eqn:Ed; [|discriminate].
  destruct (station_table n stids) as [info|e]; [|discriminate].
  destruct (CDEC.project info) as [DF|e]; [|discriminate].
  intros _. exists r, stids, (pd.where_notnull_None DF). auto.
Qed.

Lemma successful_run_trace_witness :
  exists r stids T,
    all_stations abc_net = Some r
    /\ directory_ids r = Ok stids
    /\ fst (CDEC.run abc_net)
       = {| net := abc_net;
            trace := GetAllStations :: map GetStationInfo stids
                       ++ [InsertData T "CDEC metadata" true] |}.
Proof.
  assert (snd (CDEC.run abc_net) = Ok tt) as H by (vm_compute; reflexivity).
  exact (successful_run_trace abc_net H).
Defined.

Lemma last_or_inside {A} (pre post l : list A) (x y : A) :
  pre ++ x :: post = l ++ [y] -> (post = [] /\ pre = l /\ x = y) \/ In x l.
Proof.
  destruct post as [|z post] using rev_ind; intro H.
  - left. apply (app_inj_tail pre l x y) in H. now destruct H.
  - right. clear IHpost.
    change (pre ++ x :: post ++ [z]) with (pre ++ (x :: post) ++ [z]) in H.
    rewrite app_assoc in H. apply app_inj_tail in H. destruct H as [<- _].
    apply in_or_app. right. now left.
Qed.

Lemma requests_not_insert (stids : list value) (ev : event) :
  In ev (GetAllStations :: map GetStationInfo stids) -> ~ is_insert ev.
Proof.
  intros [<-|H] (T & d & m & E); [discriminate|].
  apply in_map_iff in H. destruct H as (s & <- & _). discriminate.
Qed.

(** [metadata] calls insert_data at most once, as the very last thing it
    does, with the description CDEC metadata and the metadata flag set;
    everything before it is a request.  A run that returns normally has
    made that call exactly once. *)
Theorem insert_once_and_last (n : Net) :
  (forall pre post T description flag,
      trace (fst (CDEC.run n)) = pre ++ InsertData T description flag :: post ->
      post = []
      /\ description = "CDEC metadata" /\ flag = true
      /\ forall ev, In ev pre -> ~ is_insert ev)
  /\ (snd (CDEC.run n) = Ok tt ->
      exists T, CDEC.sunk (fst (CDEC.run n)) = [T]).
Proof.
  rewrite run_cases.
  assert (forall stids pre post T description flag,
             GetAllStations :: map GetStationInfo stids
             = pre ++ InsertData T description flag :: post -> False) as Hno.
  { intros stids pre post T d m E.
    apply (requests_not_insert stids (InsertData T d m)).
    - rewrite E. apply in_or_app. right. now left.
    - now exists T, d, m. }
  destruct (all_stations n) as [r|].
  2:{ split; [|discriminate]. intros pre post T d m E. exfalso.
      exact (Hno [] pre post T d m E). }
  destruct (directory_ids r) as [stids|e].
  2:{ split; [|discriminate]. intros pre post T d m E. exfalso.
      exact (Hno [] pre post T d m E). }
  destruct (station_table n stids) as [info|e].
  2:{ split; [|discriminate]. intros pre post T d m E. exfalso.
      exact (Hno stids pre post T d m E). }
  destruct (CDEC.project info) as [DF|e].
  2:{ split; [|discriminate]. intros pre post T d m E. exfalso.
      exact (Hno stids pre post T d m E). }
  cbn [fst snd after trace]. split.
  - intros pre post T d m E. symmetry in E.
    rewrite app_comm_cons in E. apply last_or_inside in E.
    destruct E as [(-> & -> & E)|E].
    + inversion E; subst. repeat split.
      intros ev Hev. exact (requests_not_insert stids ev Hev).
    + exfalso. apply (requests_not_insert stids _ E). now exists T, d, m.
  - intros _. rewrite app_comm_cons, sunk_app, sunk_requests. now eexists.
Qed.

Lemma insert_once_and_last_witness :
  exists T, CDEC.sunk (fst (CDEC.run abc_net)) = [T].
Proof.
  assert (snd (CDEC.run abc_net) = Ok tt) as H by (vm_compute; reflexivity).
  exact (proj2 (insert_once_and_last abc_net) H).
Defined.

(** When the directory is fetched and every per-station answer is a soft
    failure, [metadata] still sends every request and then raises the
    ValueError of [pd.concat]; nothing is written. *)
Theorem all_stations_failed_run (n : Net) (r : Response) (stids : list value) :
  all_stations n = Some r ->
  directory_ids r = Ok stids ->
  Forall soft_failure (responses n stids) ->
  CDEC.run n
  = ({| net := n; trace := GetAllStations :: map GetStationInfo stids |},
     Raise (ValueError "No objects to concatenate")).
Proof.
  intros Ha Hd Hall. rewrite run_cases, Ha, Hd. unfold station_table.
  assert (flat_map (kept false) (responses n stids) = []) as ->.
  { induction Hall as [|rs res Hrs _ IH]; [reflexivity|].
    cbn [flat_map]. now rewrite (soft_failure_kept false rs Hrs), IH. }
  reflexivity.
Qed.

Lemma all_stations_failed_run_witness :
  CDEC.run http500_net
  = ({| net := http500_net;
        trace := GetAllStations :: map GetStationInfo [VStr "A"] |},
     Raise (ValueError "No objects to concatenate")).
Proof.
  assert (Forall soft_failure (responses http500_net [VStr "A"])) as H.
  { constructor; [|constructor]. apply bad_status. cbn. lia. }
  exact (all_stations_failed_run http500_net
           {| status_code := 200;
              text := Some (DObject (Some (SRecords
                        [ [("STATION_ID", VStr "A")] ]))) |}
           [VStr "A"] eq_refl eq_refl H).
Defined.

(** When stations were collected into a table but one of the six source
    fields of the conversion occurs in no record of any of them,
    [metadata] raises KeyError for such a field after all requests were
    sent, and writes nothing. *)
Theorem missing_field_raises_KeyError
        (n : Net) (r : Response) (stids : list value) (info : DataFrame)
        (c : string) :
  all_stations n = Some r ->
  directory_ids r = Ok stids ->
  snd (CDEC.multi_station_info stids false (after n [GetAllStations]))
  = Ok info ->
  In c (map fst CDEC.conversion) ->
  ~ In (LStr c) (fields_seen (responses n stids)) ->
  exists c',
    In c' (map fst CDEC.conversion)
    /\ ~ In (LStr c') (fields_seen (responses n stids))
    /\ CDEC.run n
       = ({| net := n; trace := GetAllStations :: map GetStationInfo stids |},
          Raise (KeyError (LStr c'))).
Proof.
  intros Ha Hd Ht Hin Hc. rewrite station_table_multi in Ht.
  pose proof (station_table_wf _ _ _ Ht) as W.
  assert (forall k, In k (map fst CDEC.conversion) ->
                    pd.find_column (LStr k) (data info) = None ->
                    ~ In (LStr k) (fields_seen (responses n stids))) as Hnone.
  { intros k Hk Hf. unfold station_table in Ht.
    rewrite (table_column _ _ k Ht) in Hf.
    - rewrite <- summary_labels, <- mem_false.
      now destruct (pd.mem _ _).
    - cbn in Hk. intros ->. intuition discriminate.
    - cbn in Hk. intros ->. intuition discriminate. }
  assert (pd.find_column (LStr c) (data info) = None) as Hf.
  { unfold station_table in Ht. rewrite (table_column _ _ c Ht).
    - rewrite <- summary_labels, <- mem_false in Hc. now rewrite Hc.
    - cbn in Hin. intros ->. intuition discriminate.
    - cbn in Hin. intros ->. intuition discriminate. }
  destruct (project_missing info c W Hin Hf) as (c' & Hin' & Hf' & Hp).
  exists c'. split; [exact Hin'|]. split; [now apply Hnone|].
  rewrite run_cases, Ha, Hd, Ht, Hp. reflexivity.
Qed.

Lemma missing_field_raises_KeyError_witness :
  exists c',
    In c' (map fst CDEC.conversion)
    /\ ~ In (LStr c') (fields_seen (responses id_only_net [VStr "A"]))
    /\ CDEC.run id_only_net
       = ({| net := id_only_net;
             trace := GetAllStations :: map GetStationInfo [VStr "A"] |},
          Raise (KeyError (LStr c'))).
Proof.
  assert (In "ELEVATION" (map fst CDEC.conversion)) as Hin
      by (cbn; tauto).
  assert (~ In (LStr "ELEVATION")
            (fields_seen (responses id_only_net [VStr "A"]))) as Hc.
  { cbn. intros [E|[]]. discriminate. }
  exact (missing_field_raises_KeyError id_only_net
           {| status_code := 200;
              text := Some (DObject (Some (SRecords
                        [ [("STATION_ID", VStr "A")] ]))) |}
           [VStr "A"]
           {| index := [LInt 0];
              data := [(LStr "index", [VInt 0]);
                       (LStr "STATION_ID", [VStr "A"])] |}
           "ELEVATION" eq_refl eq_refl eq_refl Hin Hc).
Defined.

Lemma map_const_repeat {A B} (v : B) (l : list A) :
  map (fun _ => v) l = repeat v (List.length l).
Proof. induction l as [|x l IH]; simpl; [reflexivity|now rewrite IH]. Qed.

Lemma info_column_first_records (n : Net) (stids : list value)
      (info : DataFrame) (k : string) (vs : list value) :
  station_table n stids = Ok info ->
  k <> "index" -> k <> "level_0" ->
  pd.find_column (LStr k) (data info) = Some vs ->
  vs = map (pd.cell k) (flat_map first_record (responses n stids)).
Proof.
  unfold station_table. intros Ht N1 N2 Hf.
  rewrite (table_column _ _ k Ht N1 N2) in Hf.
  destruct (pd.mem _ _); [|discriminate].
  rewrite cells_at_kept in Hf. now inversion Hf.
Qed.

(** In the table handed to the database every row carries the constants
    of lines 148-150: source cdec, state CA, timezone PDT. *)
Theorem sunk_table_constants (n : Net) (T : DataFrame) :
  In T (CDEC.sunk (fst (CDEC.run n))) ->
  column T "source" = Some (repeat (VStr "cdec") (List.length (index T)))
  /\ column T "state" = Some (repeat (VStr "CA") (List.length (index T)))
  /\ column T "timezone" = Some (repeat (VStr "PDT") (List.length (index T))).
Proof.
  intro H. apply sunk_inv in H.
  destruct H as (r & stids & info & DF & _ & _ & Ht & Hp & -> & _).
  apply station_table_wf in Ht.
  destruct (project_inv info DF Ht Hp)
    as (lat & id & lon & nm & el & ag & _ & _ & _ & _ & _ & _ & ->).
  unfold column. cbn. rewrite !map_map. cbn.
  now rewrite !map_const_repeat.
Qed.

Lemma sunk_table_constants_witness :
  column (hd pd.empty (CDEC.sunk (fst (CDEC.run abc_net)))) "source"
  = Some (repeat (VStr "cdec")
                 (List.length
                    (index (hd pd.empty (CDEC.sunk (fst (CDEC.run abc_net)))))))
  /\ column (hd pd.empty (CDEC.sunk (fst (CDEC.run abc_net)))) "state"
     = Some (repeat (VStr "CA")
                    (List.length
                       (index (hd pd.empty (CDEC.sunk (fst (CDEC.run abc_net)))))))
  /\ column (hd pd.empty (CDEC.sunk (fst (CDEC.run abc_net)))) "timezone"
     = Some (repeat (VStr "PDT")
                    (List.length
                       (index (hd pd.empty (CDEC.sunk (fst (CDEC.run abc_net))))))).
Proof.
  assert (In (hd pd.empty (CDEC.sunk (fst (CDEC.run abc_net))))
             (CDEC.sunk (fst (CDEC.run abc_net)))) as H1
      by (vm_compute; left; reflexivity).
  exact (sunk_table_constants abc_net _ H1).
Defined.

(** In the table handed to the database each column named by the
    conversion has one cell per collected station, in request order, and
    the cell is null exactly when the first record of the station lacks
    the source field or has null for it. *)
Theorem sunk_table_null_cells (n : Net) (T : DataFrame) :
  In T (CDEC.sunk (fst (CDEC.run n))) ->
  exists r stids,
    all_stations n = Some r
    /\ directory_ids r = Ok stids
    /\ forall src dst,
        In (src, dst) CDEC.conversion ->
        exists vs,
          column T dst = Some vs
          /\ filled vs
             = filled (map (pd.cell src)
                           (flat_map first_record (responses n stids))).
Proof.
  intro H. apply sunk_inv in H.
  destruct H as (r & stids & info & DF & Ha & Hd & Ht & Hp & -> & _).
  exists r, stids. split; [exact Ha|]. split; [exact Hd|].
  pose proof (station_table_wf _ _ _ Ht) as W.
  destruct (project_inv info DF W Hp)
    as (lat & id & lon & nm & el & ag & H1 & H2 & H3 & H4 & H5 & H6 & ->).
  apply (info_column_first_records _ _ _ _ _ Ht) in H1, H2, H3, H4, H5, H6;
    try discriminate.
  subst. intros src dst Hin. cbn in Hin.
  destruct Hin as [E|[E|[E|[E|[E|[E|[]]]]]]]; inversion E; subst;
    eexists; (split; [unfold column; cbn; reflexivity|]);
    apply (filled_none_if_null (map (pd.cell _) _)).
Qed.

Lemma sunk_table_null_cells_witness :
  exists r stids,
    all_stations abc_net = Some r
    /\ directory_ids r = Ok stids
    /\ forall src dst,
        In (src, dst) CDEC.conversion ->
        exists vs,
          column (hd pd.empty (CDEC.sunk (fst (CDEC.run abc_net)))) dst = Some vs
          /\ filled vs
             = filled (map (pd.cell src)
                           (flat_map first_record (responses abc_net stids))).
Proof.
  assert (In (hd pd.empty (CDEC.sunk (fst (CDEC.run abc_net))))
             (CDEC.sunk (fst (CDEC.run abc_net)))) as H1
      by (vm_compute; left; reflexivity).
  exact (sunk_table_null_cells abc_net _ H1).
Defined.

(** The table handed to the database is rectangular: its rows are
    labelled 0, 1, ..., there is at least one, every column has one cell
    per row, and no two columns share a label. *)
Theorem sunk_table_shape (n : Net) (T : DataFrame) :
  In T (CDEC.sunk (fst (CDEC.run n))) ->
  (exists m, index T = pd.RangeIndex (S m))
  /\ wf_frame T
  /\ NoDup (columns T).
Proof.
  intro H. apply sunk_inv in H.
  destruct H as (r & stids & info & DF & _ & _ & Ht & Hp & -> & _).
  pose proof (station_table_wf _ _ _ Ht) as W.
  destruct (station_table_rows _ _ _ Ht) as [Hne Hidx].
  destruct (project_inv info DF W Hp)
    as (lat & id & lon & nm & el & ag & H1 & H2 & H3 & H4 & H5 & H6 & ->).
  apply (find_column_length _ _ _ W) in H1, H2, H3, H4, H5, H6.
  split; [|split].
  - cbn [pd.where_notnull_None canonical index]. rewrite Hidx.
    destruct (flat_map first_record (responses n stids)) as [|x l];
      [contradiction|]. now exists (List.length l).
  - unfold wf_frame. cbn [pd.where_notnull_None canonical index data map fst snd].
    repeat constructor; cbn [snd]; rewrite !length_map; assumption || reflexivity.
  - cbn. repeat constructor; cbn; intuition discriminate.
Qed.

Lemma sunk_table_shape_witness :
  (exists m, index (hd pd.empty (CDEC.sunk (fst (CDEC.run abc_net))))
             = pd.RangeIndex (S m))
  /\ wf_frame (hd pd.empty (CDEC.sunk (fst (CDEC.run abc_net))))
  /\ NoDup (columns (hd pd.empty (CDEC.sunk (fst (CDEC.run abc_net))))).
Proof.
  assert (In (hd pd.empty (CDEC.sunk (fst (CDEC.run abc_net))))
             (CDEC.sunk (fst (CDEC.run abc_net)))) as H1
      by (vm_compute; left; reflexivity).
  exact (sunk_table_shape abc_net _ H1).
Defined.

(* ================================================================== *)
(** ** [single_station_info] *)

Lemma uniq_NoDup (ls : list label) : NoDup (pd.uniq ls).
Proof.
  induction ls as [|l ls IH]; simpl; constructor.
  - rewrite filter_In. intros [_ H]. now rewrite label_eqb_refl in H.
  - now apply NoDup_filter.
Qed.

Lemma find_column_labelled (h : label -> list value) (U : list label)
      (x : label) :
  pd.find_column x (map (fun l => (l, h l)) U)
  = if pd.mem x U then Some (h x) else None.
Proof.
  induction U as [|l U IH]; simpl; [reflexivity|].
  destruct (label_eqb x l) eqn:E; simpl; [|exact IH].
  apply label_eqb_eq in E. now subst.
Qed.

Lemma from_records_columns (records : list dict) :
  columns (pd.from_records records) = pd.uniq (flat_map pd.keys records).
Proof.
  unfold columns, pd.from_records. cbn [data]. rewrite map_map. apply map_id.
Qed.

Lemma single_station_info_run (stid : value) (w : World) :
  CDEC.single_station_info stid w
  = ({| net := net w; trace := trace w ++ [GetStationInfo stid] |},
     match station_info (net w) 0 stid with
     | Some r => CDEC.station_frame r
     | None => Raise ConnectionError
     end).
Proof.
  unfold CDEC.single_station_info, bind, requests.get_station_info, lift, emit.
  now destruct (station_info (net w) 0 stid).
Qed.

(** When the answer carries a STATION array, whatever its status code,
    [single_station_info] returns, after its one request, a frame with
    one row per record in the order of the array, labelled 0, 1, ..., and
    one column per field name that occurs, each name once.  The column of
    a field has a null cell exactly for the records that lack the field
    or have null for it; a name that occurs in no record is no column. *)
Theorem single_station_info_frame
        (stid : value) (w : World) (r : Response) (records : list dict) :
  station_info (net w) 0 stid = Some r ->
  text r = Some (DObject (Some (SRecords records))) ->
  exists d,
    CDEC.single_station_info stid w
    = ({| net := net w; trace := trace w ++ [GetStationInfo stid] |}, Ok d)
    /\ index d = pd.RangeIndex (List.length records)
    /\ NoDup (columns d)
    /\ wf_frame d
    /\ forall k,
        (In (LStr k) (flat_map pd.keys records) ->
         exists vs,
           column d k = Some vs
           /\ filled vs = filled (map (pd.cell k) records))
        /\ (~ In (LStr k) (flat_map pd.keys records) ->
            pd.getitem d (LStr k) = Raise (KeyError (LStr k))).
Proof.
  intros Hs Ht. exists (pd.from_records records).
  rewrite single_station_info_run, Hs. unfold CDEC.station_frame.
  rewrite Ht. cbn [json.loads getitem_STATION pd.new_DataFrame rbind].
  split; [reflexivity|]. split; [reflexivity|].
  split; [rewrite from_records_columns; apply uniq_NoDup|].
  split.
  - unfold wf_frame, pd.from_records. cbn [index data].
    apply Forall_forall. intros col Hin. apply in_map_iff in Hin.
    destruct Hin as (l & <- & _). cbn [snd].
    now rewrite length_map, RangeIndex_length.
  - intro k.
    assert (pd.find_column (LStr k) (data (pd.from_records records))
            = if pd.mem (LStr k) (pd.uniq (flat_map pd.keys records))
              then Some (map (pd.cell k) records) else None) as Hf
        by apply (find_column_labelled
                    (fun l => map (pd.label_cell l) records)).
    split; intro Hin.
    + rewrite <- uniq_In in Hin. apply mem_In in Hin.
      unfold column. rewrite Hf, Hin. now eexists.
    + rewrite <- uniq_In, <- mem_false in Hin. rewrite Hin in Hf.
      now apply getitem_missing.
Qed.

Lemma single_station_info_frame_witness :
  exists d,
    CDEC.single_station_info (VStr "B") (after error_page_net [])
    = ({| net := error_page_net; trace := [] ++ [GetStationInfo (VStr "B")] |},
       Ok d)
    /\ index d = pd.RangeIndex (List.length [full_record "B" 1 2])
    /\ NoDup (columns d)
    /\ wf_frame d
    /\ forall k,
        (In (LStr k) (flat_map pd.keys [full_record "B" 1 2]) ->
         exists vs,
           column d k = Some vs
           /\ filled vs = filled (map (pd.cell k) [full_record "B" 1 2]))
        /\ (~ In (LStr k) (flat_map pd.keys [full_record "B" 1 2]) ->
            pd.getitem d (LStr k) = Raise (KeyError (LStr k))).
Proof.
  exact (single_station_info_frame
           (VStr "B") (after error_page_net [])
           {| status_code := 500;
              text := Some (DObject (Some (SRecords [full_record "B" 1 2]))) |}
           [full_record "B" 1 2] eq_refl eq_refl).
Defined.

(** For one station and one answer, [multi_station_info] collects what
    [single_station_info] returns when the status is 200 (the frame in
    fields mode, its first row in summary mode, if it has one), and it
    collects nothing where [single_station_info] raises. *)
Theorem single_and_multi_agree (n : Net) (stid : value) (r : Response) :
  station_info n 0 stid = Some r ->
  (forall d,
      status_code r = 200 ->
      snd (CDEC.single_station_info stid (after n [])) = Ok d ->
      CDEC.collect true (responses n [stid]) = ([OFrame d], Ok tt)
      /\ CDEC.collect false (responses n [stid])
         = (match pd.iloc0 d with
            | Ok row => [OSeries row]
            | Raise _ => []
            end, Ok tt))
  /\ (forall e fields,
         snd (CDEC.single_station_info stid (after n [])) = Raise e ->
         CDEC.collect fields (responses n [stid]) = ([], Ok tt)).
Proof.
  intro Hs.
  assert (responses n [stid] = [Some r]) as -> by (cbn; now rewrite Hs).
  rewrite single_station_info_run. cbn [net after snd]. rewrite Hs.
  split.
  - intros d H200 Hd. rewrite !collect_spec. cbn [flat_map].
    rewrite !app_nil_r, kept_true_cases, (kept_false_frame r d H200 Hd).
    apply Z.eqb_eq in H200. now rewrite H200, Hd.
  - intros e fields He. rewrite collect_spec. cbn [flat_map].
    now rewrite app_nil_r, (soft_failure_kept fields (Some r) (bad_payload r e He)).
Qed.

Lemma single_and_multi_agree_witness :
  (forall d,
      status_code {| status_code := 200;
                     text := Some (DObject (Some (SRecords
                               [full_record "A" 10 20]))) |} = 200 ->
      snd (CDEC.single_station_info (VStr "A") (after abc_net [])) = Ok d ->
      CDEC.collect true (responses abc_net [VStr "A"]) = ([OFrame d], Ok tt)
      /\ CDEC.collect false (responses abc_net [VStr "A"])
         = (match pd.iloc0 d with
            | Ok row => [OSeries row]
            | Raise _ => []
            end, Ok tt))
  /\ (forall e fields,
         snd (CDEC.single_station_info (VStr "A") (after abc_net [])) = Raise e ->
         CDEC.collect fields (responses abc_net [VStr "A"]) = ([], Ok tt)).
Proof.
  exact (single_and_multi_agree abc_net (VStr "A")
           {| status_code := 200;
              text := Some (DObject (Some (SRecords [full_record "A" 10 20]))) |}
           eq_refl).
Defined.

(* ================================================================== *)
(** ** The directory *)

Lemma directory_ids_records (r : Response) (records : list dict) :
  text r = Some (DObject (Some (SRecords records))) ->
  directory_ids r
  = if pd.mem (LStr "STATION_ID") (pd.uniq (flat_map pd.keys records))
    then Ok (map (pd.cell "STATION_ID") records)
    else Raise (KeyError (LStr "STATION_ID")).
Proof.
  intro Ht. unfold directory_ids, CDEC.station_frame. rewrite Ht.
  cbn [json.loads getitem_STATION pd.new_DataFrame rbind].
  unfold pd.getitem.
  assert (pd.find_column (LStr "STATION_ID") (data (pd.from_records records))
          = if pd.mem (LStr "STATION_ID") (pd.uniq (flat_map pd.keys records))
            then Some (map (pd.cell "STATION_ID") records) else None) as ->
      by apply (find_column_labelled (fun l => map (pd.label_cell l) records)).
  now destruct (pd.mem _ _).
Qed.

(** A directory without stations (an empty STATION array, or null) does
    not give a run over zero stations: [metadata] raises KeyError for
    STATION_ID right after the directory request. *)
Theorem empty_directory_raises_KeyError (n : Net) (r : Response) :
  all_stations n = Some r ->
  text r = Some (DObject (Some (SRecords [])))
  \/ text r = Some (DObject (Some SNull)) ->
  CDEC.run n
  = ({| net := n; trace := [GetAllStations] |},
     Raise (KeyError (LStr "STATION_ID"))).
Proof.
  intros Ha Ht. rewrite run_cases, Ha.
  assert (directory_ids r = Raise (KeyError (LStr "STATION_ID"))) as ->.
  { unfold directory_ids, CDEC.station_frame.
    destruct Ht as [-> | ->]; reflexivity. }
  reflexivity.
Qed.

Lemma empty_directory_raises_KeyError_witness :
  CDEC.run {| all_stations := station_reply [];
              station_info := fun _ _ => server_error |}
  = ({| net := {| all_stations := station_reply [];
                  station_info := fun _ _ => server_error |};
        trace := [GetAllStations] |},
     Raise (KeyError (LStr "STATION_ID"))).
Proof.
  exact (empty_directory_raises_KeyError
           {| all_stations := station_reply [];
              station_info := fun _ _ => server_error |}
           {| status_code := 200; text := Some (DObject (Some (SRecords []))) |}
           eq_refl (or_introl eq_refl)).
Defined.

(** When some record of the directory has a STATION_ID, [metadata]
    requests one station per directory record, in directory order, and
    the parameter is null exactly for the records that have no STATION_ID
    or a null one; the status code of the directory answer is not looked
    at, and nothing that follows is a per-station request. *)
Theorem directory_drives_requests (n : Net) (r : Response)
        (records : list dict) :
  all_stations n = Some r ->
  text r = Some (DObject (Some (SRecords records))) ->
  In (LStr "STATION_ID") (flat_map pd.keys records) ->
  exists ids rest,
    trace (fst (CDEC.run n))
    = GetAllStations :: map GetStationInfo ids ++ rest
    /\ List.length ids = List.length records
    /\ filled ids = filled (map (pd.cell "STATION_ID") records)
    /\ forall s, ~ In (GetStationInfo s) rest.
Proof.
  intros Ha Ht Hin. rewrite run_cases, Ha, (directory_ids_records r records Ht).
  rewrite <- uniq_In in Hin. apply mem_In in Hin. rewrite Hin.
  exists (map (pd.cell "STATION_ID") records).
  destruct (station_table n _) as [info|e].
  - destruct (CDEC.project info) as [DF|e].
    + eexists. split; [reflexivity|]. split; [apply length_map|].
      split; [reflexivity|]. intros s [H|[]]. discriminate.
    + exists []. rewrite app_nil_r. split; [reflexivity|].
      split; [apply length_map|]. split; [reflexivity|]. intros s [].
  - exists []. rewrite app_nil_r. split; [reflexivity|].
    split; [apply length_map|]. split; [reflexivity|]. intros s [].
Qed.

Lemma directory_drives_requests_witness :
  exists ids rest,
    trace (fst (CDEC.run abc_net))
    = GetAllStations :: map GetStationInfo ids ++ rest
    /\ List.length ids
       = List.length [ [("STATION_ID", VStr "A")];
                       [("STATION_ID", VStr "B")];
                       [("STATION_ID", VStr "C")] ]
    /\ filled ids
       = filled (map (pd.cell "STATION_ID")
                     [ [("STATION_ID", VStr "A")];
                       [("STATION_ID", VStr "B")];
                       [("STATION_ID", VStr "C")] ])
    /\ forall s, ~ In (GetStationInfo s) rest.
Proof.
  assert (In (LStr "STATION_ID")
             (flat_map pd.keys [ [("STATION_ID", VStr "A")];
                                 [("STATION_ID", VStr "B")];
                                 [("STATION_ID", VStr "C")] ])) as Hin
      by (cbn; tauto).
  exact (directory_drives_requests abc_net
           {| status_code := 200;
              text := Some (DObject (Some (SRecords
                        [ [("STATION_ID", VStr "A")];
                          [("STATION_ID", VStr "B")];
                          [("STATION_ID", VStr "C")] ]))) |}
           _ eq_refl eq_refl Hin).
Defined.
